(** * Driver Portal: the request handlers of the server, embedded and verified

  The server is an Express application over a SQLite store, a session
  store and an uploads directory.  The development follows the layout of
  the server file: JavaScript values, the store ([db.js]), the upload
  intake (multer's [diskStorage]), the auth helpers and the route
  handlers.  Handlers are written in explicit state-passing style over a
  [World] (store, uploads directory, log of effects). *)

From Stdlib Require Import ZArith String Ascii List Lia.
From Stdlib Require Import DecimalString DecimalZ DecimalPos.
From stdpp Require Import base gmap sets list strings.

#[local] Set Warnings "-clear-no-such-hyp".

Local Open Scope Z_scope.
Local Open Scope string_scope.

(** ** JavaScript values *)

Module Js.

(** The values the handlers store in objects and bind to SQL parameters. *)
Inductive value :=
| Undefined
| Num (n : Z)
| Str (s : string).

#[global] Instance value_eq_dec : EqDecision value.
Proof. solve_decision. Defined.

(** A plain object: own properties by name. *)
Abbreviation object := (gmap string value).

(** [o.k]: reading a missing property gives [undefined]. *)
Definition prop (o : object) (k : string) : value :=
  default Undefined (o !! k).

(** A form field of [req.body]: absent ([undefined]) or a string. *)
Abbreviation field := (option string).

(** [!x] for a form field: [undefined] and the empty string are falsy. *)
Definition falsy (x : field) : bool :=
  match x with
  | None => true
  | Some s => if decide (s = "") then true else false
  end.

Definition truthy (x : field) : bool := negb (falsy x).

(** [x || null] *)
Definition or_null (x : field) : option string :=
  if truthy x then x else None.

(** The string bound for a field known to be truthy. *)
Definition text (x : field) : string := default "" x.

(** [`${n}`] for an integer [n]. *)
Definition template_number (n : Z) : string :=
  NilZero.string_of_int (Z.to_int n).

End Js.

(** ** File intake: multer's disk storage *)

Module Intake.

(** The three directories of the uploads tree. *)
Inductive dir := uploadBase | replayDir | telemetryDir.

#[global] Instance dir_eq_dec : EqDecision dir.
Proof. solve_decision. Defined.

Definition dir_code (d : dir) : nat :=
  match d with uploadBase => 0 | replayDir => 1 | telemetryDir => 2 end%nat.

Definition dir_of_code (n : nat) : dir :=
  match n with 0%nat => uploadBase | 1%nat => replayDir | _ => telemetryDir end.

#[global] Instance dir_countable : Countable dir.
Proof.
  apply (inj_countable' dir_code dir_of_code).
  by intros [].
Defined.

(** [path.join(d, name)] for a name without separators: a file of [d]. *)
Abbreviation path := (dir * string)%type.

(** [destination]: by field name. *)
Definition destination (fieldname : string) : dir :=
  if decide (fieldname = "replay") then replayDir
  else if decide (fieldname = "telemetry") then telemetryDir
  else uploadBase.

(** The character class [[a-zA-Z0-9_.-]]. *)
Definition safe_char (c : ascii) : bool :=
  let n := nat_of_ascii c in
  ((97 <=? n) && (n <=? 122))%nat
  || ((65 <=? n) && (n <=? 90))%nat
  || ((48 <=? n) && (n <=? 57))%nat
  || Ascii.eqb c "_" || Ascii.eqb c "." || Ascii.eqb c "-".

(** [s.replace(/[^a-zA-Z0-9_.-]/g, '_')] *)
Fixpoint replace_unsafe (s : string) : string :=
  match s with
  | EmptyString => EmptyString
  | String c r => String (if safe_char c then c else "_"%char) (replace_unsafe r)
  end.

(** [filename]: [`${Date.now()}-${originalname.replace(...)}`] *)
Definition safeName (now : Z) (originalname : string) : string :=
  Js.template_number now +:+ "-" +:+ replace_unsafe originalname.

(** An incoming file part, and the clock reading when its name is made. *)
Record part := { originalname : string; clock : Z }.

(** What multer leaves in [req.files[field][i]]. *)
Record file := { filename : string }.

(** [req.files] under [upload.fields([replay, telemetry])]; a field without
    files is absent, which the empty list stands for. *)
Record files := { replay : list file; telemetry : list file }.

Definition no_files : files := {| replay := []; telemetry := [] |}.

End Intake.

(** ** The store: [db.js] and the two tables it creates *)

Module User.

(** A row of [users]. *)
Record t := {
  id : Z;
  name : string;
  email : string;
  password_hash : string;
  role : string;
  created_at : Z;
}.

End User.

Module Submission.

(** A row of [submissions]: [protest_text], [replay_file] and
    [telemetry_files] are nullable.  [telemetry_files] holds the JSON text of
    an array of file names; the row carries the array that text denotes
    ([JSON.parse] of [JSON.stringify] of an array of strings is that array). *)
Record t := {
  id : Z;
  user_id : Z;
  race_date : string;
  race_time : string;
  series : string;
  is_protest : Z;
  protest_text : option string;
  replay_file : option string;
  telemetry_files : option (list string);
  created_at : Z;
}.

End Submission.

Module Db.

(** A value bound to a [?] placeholder. *)
Inductive param :=
| Null
| Integer (n : Z)
| Text (s : string).

(** How the driver binds a JavaScript value: [undefined] is left unbound,
    which SQLite reads as NULL. *)
Definition bind (v : Js.value) : param :=
  match v with
  | Js.Undefined => Null
  | Js.Num n => Integer n
  | Js.Str s => Text s
  end.

Definition bind_field (x : Js.field) : param :=
  match x with
  | None => Null
  | Some s => Text s
  end.

(** SQLite applies the affinity of an INTEGER column to a text operand
    before it compares or stores it: [integer_of_text s] is the integer the
    text [s] is then equal to, if there is one.  Which texts are numbers
    (signs, blanks around the digits, a fraction of zeros, an exponent) is
    SQLite's business and not the server's; the handlers are verified for
    every conversion under which the decimal text of an integer stands for
    that integer. *)
Class Affinity := {
  integer_of_text : string -> option Z;
  integer_of_decimal : forall n : Z, integer_of_text (Js.template_number n) = Some n;
}.

(** The integer an operand stands for against an INTEGER column; NULL
    stands for none. *)
Definition as_integer `{Affinity} (p : param) : option Z :=
  match p with
  | Null => None
  | Integer n => Some n
  | Text s => integer_of_text s
  end.

(** [column = ?] on an INTEGER column. *)
Definition int_eq `{Affinity} (column : Z) (p : param) : bool :=
  match as_integer p with
  | Some n => bool_decide (column = n)
  | None => false
  end.

(** [column = ?] on a TEXT column, for a text or NULL operand. *)
Definition text_eq (column : string) (p : param) : bool :=
  match p with
  | Text s => bool_decide (column = s)
  | _ => false
  end.

(** The tables, with the AUTOINCREMENT counters of [sqlite_sequence]. *)
Record store := {
  users : list User.t;
  submissions : list Submission.t;
  users_seq : Z;
  submissions_seq : Z;
}.

Definition empty : store :=
  {| users := []; submissions := []; users_seq := 0; submissions_seq := 0 |}.

(** The statements the handlers pass to [run], with their parameters in
    the order of the placeholders. *)
Inductive statement :=
| InsertUser (name email password_hash role : string)
| InsertSubmission (user_id : param) (race_date race_time series : string)
    (is_protest : Z) (protest_text replay_file : option string)
    (telemetry_files : list string)
| UpdateSubmission (race_date race_time series : string)
    (is_protest : Z) (protest_text replay_file : option string)
    (telemetry_files : list string) (id user_id : param)
| UpdateUserRole (role : string) (id : param).

(** [WHERE id = ? AND user_id = ?] *)
Definition owned_by `{Affinity} (id user_id : param) (r : Submission.t) : bool :=
  int_eq (Submission.id r) id && int_eq (Submission.user_id r) user_id.

(** The SET clause of the edit: seven columns. *)
Definition set_submission (race_date race_time series : string)
    (is_protest : Z) (protest_text replay_file : option string)
    (telemetry_files : list string) (r : Submission.t) : Submission.t :=
  {| Submission.id := Submission.id r;
     Submission.user_id := Submission.user_id r;
     Submission.race_date := race_date;
     Submission.race_time := race_time;
     Submission.series := series;
     Submission.is_protest := is_protest;
     Submission.protest_text := protest_text;
     Submission.replay_file := replay_file;
     Submission.telemetry_files := Some telemetry_files;
     Submission.created_at := Submission.created_at r |}.

Definition set_role (role : string) (u : User.t) : User.t :=
  {| User.id := User.id u;
     User.name := User.name u;
     User.email := User.email u;
     User.password_hash := User.password_hash u;
     User.role := role;
     User.created_at := User.created_at u |}.

(** [run(sql, params)]: [None] is a rejected promise (a constraint of the
    schema is violated); [now] is CURRENT_TIMESTAMP. *)
Definition run `{Affinity} (st : statement) (now : Z) (s : store) : option store :=
  match st with
  | InsertUser name email password_hash role =>
      (* email TEXT UNIQUE *)
      if existsb (fun u => bool_decide (User.email u = email)) (users s)
      then None
      else
        let row := {| User.id := users_seq s + 1;
                      User.name := name;
                      User.email := email;
                      User.password_hash := password_hash;
                      User.role := role;
                      User.created_at := now |} in
        Some {| users := users s ++ [row];
                submissions := submissions s;
                users_seq := users_seq s + 1;
                submissions_seq := submissions_seq s |}
  | InsertSubmission user_id race_date race_time series is_protest
      protest_text replay_file telemetry_files =>
      (* user_id INTEGER NOT NULL *)
      match as_integer user_id with
      | None => None
      | Some uid =>
        let row := {| Submission.id := submissions_seq s + 1;
                      Submission.user_id := uid;
                      Submission.race_date := race_date;
                      Submission.race_time := race_time;
                      Submission.series := series;
                      Submission.is_protest := is_protest;
                      Submission.protest_text := protest_text;
                      Submission.replay_file := replay_file;
                      Submission.telemetry_files := Some telemetry_files;
                      Submission.created_at := now |} in
        Some {| users := users s;
                submissions := submissions s ++ [row];
                users_seq := users_seq s;
                submissions_seq := submissions_seq s + 1 |}
      end
  | UpdateSubmission race_date race_time series is_protest protest_text
      replay_file telemetry_files id user_id =>
      let upd r :=
        if owned_by id user_id r
        then set_submission race_date race_time series is_protest
               protest_text replay_file telemetry_files r
        else r in
      Some {| users := users s;
              submissions := map upd (submissions s);
              users_seq := users_seq s;
              submissions_seq := submissions_seq s |}
  | UpdateUserRole role id =>
      let upd u := if int_eq (User.id u) id then set_role role u else u in
      Some {| users := map upd (users s);
              submissions := submissions s;
              users_seq := users_seq s;
              submissions_seq := submissions_seq s |}
  end.

(** [get('SELECT * FROM users WHERE email = ?', [email])]: the first row. *)
Definition get_user_by_email (email : param) (s : store) : option User.t :=
  find (fun u => text_eq (User.email u) email) (users s).

(** [get('SELECT * FROM submissions WHERE id = ? AND user_id = ?', ...)] *)
Definition get_submission `{Affinity} (id user_id : param) (s : store)
  : option Submission.t :=
  find (owned_by id user_id) (submissions s).

End Db.

(** ** The world the handlers act on *)

(** The effects a handler leaves behind, in the order they happen. *)
Inductive event :=
| Unlinked (p : Intake.path)
| Ran (st : Db.statement).

(** The store, the files of the uploads tree and the log of effects. *)
Record World := {
  db : Db.store;
  fs : gset Intake.path;
  log : list event;
}.

Definition initial : World := {| db := Db.empty; fs := ∅; log := [] |}.

(** [fs.existsSync(p)] *)
Definition existsSync (p : Intake.path) (w : World) : bool :=
  bool_decide (p ∈ fs w).

(** [fs.unlinkSync(p)] *)
Definition unlinkSync (p : Intake.path) (w : World) : World :=
  {| db := db w; fs := fs w ∖ {[p]}; log := log w ++ [Unlinked p] |}.

(** [if (fs.existsSync(p)) fs.unlinkSync(p)] *)
Definition unlink_if_exists (p : Intake.path) (w : World) : World :=
  if existsSync p w then unlinkSync p w else w.

(** [names.forEach(file => { if (existsSync(..)) unlinkSync(..) })] in [d] *)
Definition unlink_each (d : Intake.dir) (names : list string) (w : World) : World :=
  fold_left (fun w file => unlink_if_exists (d, file) w) names w.

(** [await run(sql, params)] *)
Definition run `{Db.Affinity} (st : Db.statement) (now : Z) (w : World) : option World :=
  match Db.run st now (db w) with
  | Some s => Some {| db := s; fs := fs w; log := log w ++ [Ran st] |}
  | None => None
  end.

(** Multer writes one part under its generated name. *)
Definition store_part (d : Intake.dir) (w : World) (p : Intake.part)
  : World * Intake.file :=
  let name := Intake.safeName (Intake.clock p) (Intake.originalname p) in
  ({| db := db w; fs := fs w ∪ {[(d, name)]}; log := log w |},
   {| Intake.filename := name |}).

Fixpoint store_parts (d : Intake.dir) (w : World) (ps : list Intake.part)
  : World * list Intake.file :=
  match ps with
  | [] => (w, [])
  | p :: ps =>
      let '(w1, f) := store_part d w p in
      let '(w2, fs) := store_parts d w1 ps in
      (w2, f :: fs)
  end.

(** [upload.fields([{name:'replay',maxCount:1},{name:'telemetry',maxCount:5}])]:
    a request over either limit fails before the handler runs and its files
    are not kept.  The parts of a field come in the order of the body; the
    directory is a set and the intake leaves no entry in the log, so the
    order in which parts of different fields are written does not show. *)
Definition upload_fields (replay telemetry : list Intake.part) (w : World)
  : option (Intake.files * World) :=
  if bool_decide (length replay ≤ 1)%nat && bool_decide (length telemetry ≤ 5)%nat
  then
    let '(w1, r) := store_parts (Intake.destination "replay") w replay in
    let '(w2, t) := store_parts (Intake.destination "telemetry") w1 telemetry in
    Some ({| Intake.replay := r; Intake.telemetry := t |}, w2)
  else None.

(** ** Requests and responses *)

Module Body.

(** [req.body] of the registration form. *)
Record registration := {
  name : Js.field;
  email : Js.field;
  password : Js.field;
  admin_code : Js.field;
}.

(** [req.body] of the submission form (create and edit). *)
Record submission := {
  race_date : Js.field;
  race_time : Js.field;
  series : Js.field;
  is_protest : Js.field;
  protest_text : Js.field;
}.

End Body.

(** The locals a view is rendered with. *)
Record locals := {
  error : option string;
  user : option Js.object;
  submission : option Submission.t;
}.

Definition error_only (msg : string) : locals :=
  {| error := Some msg; user := None; submission := None |}.

Inductive response :=
| Redirect (url : string)
| Render (view : string) (l : locals)
| Send (status : Z) (text : string)
| Rejected.

(** [req.session.user]: absent, or the object a login stored. *)
Abbreviation session := (option Js.object).

(** [process.env] *)
Record environment := { ADMIN_CODE : Js.field }.

(** [process.env.ADMIN_CODE || 'admin123'] *)
Definition admin_secret (env : environment) : string :=
  if Js.truthy (ADMIN_CODE env) then Js.text (ADMIN_CODE env) else "admin123".

(** The two functions the server takes from bcrypt.  [hash] draws a salt,
    which is an input here. *)
Class Bcrypt := {
  bcrypt_hash : string -> Z -> string -> string;
  bcrypt_compare : string -> string -> bool;
}.

(** ** Auth helpers *)

Definition requireAuth (s : session) : option response :=
  match s with
  | None => Some (Redirect "/login")
  | Some _ => None
  end.

Definition requireAdmin (s : session) : option response :=
  match s with
  | None => Some (Send 403 "Forbidden")
  | Some u =>
      if decide (Js.prop u "role" = Js.Str "admin") then None
      else Some (Send 403 "Forbidden")
  end.

(** ** Route handlers *)

Section Handlers.

Context `{Bcrypt} `{Db.Affinity}.
Variable env : environment.

(** [await run(sql, params)] when the store can also reject a statement for
    a reason of its own (the file is locked, the disk is full, an I/O
    error): [fails] says that it does so for this statement. *)
Definition run_or_fail (fails : bool) (st : Db.statement) (now : Z) (w : World)
  : option World :=
  if fails then None else run st now w.

(** [app.post('/register')]; the [catch (e)] around the INSERT takes every
    rejection of [run], whatever its reason. *)
Definition register (fails : bool) (body : Body.registration) (salt : string)
    (now : Z) (w : World) : response * World :=
  let name := Body.name body in
  let email := Body.email body in
  let password := Body.password body in
  let admin_code := Body.admin_code body in
  if Js.falsy name || Js.falsy email || Js.falsy password
  then (Render "register" (error_only "All fields are required."), w)
  else
    let passwordHash := bcrypt_hash (Js.text password) 10 salt in
    let role :=
      if Js.truthy admin_code && bool_decide (admin_code = Some (admin_secret env))
      then "admin" else "driver" in
    match run_or_fail fails
            (Db.InsertUser (Js.text name) (Js.text email) passwordHash role) now w with
    | None => (Render "register" (error_only "Email already in use."), w)
    | Some w' => (Redirect "/login", w')
    end.

(** [app.post('/register')] over a store that rejects a statement only for
    the constraints of the schema. *)
Definition post_register (body : Body.registration) (salt : string)
    (now : Z) (w : World) : response * World :=
  register false body salt now w.

(** The object literal a login stores in [req.session.user]. *)
Definition session_user (user : User.t) : Js.object :=
  {[ "id" := Js.Num (User.id user);
     "name" := Js.Str (User.name user);
     "role" := Js.Str (User.role user);
     "email" := Js.Str (User.email user) ]}.

(** [app.post('/login')]: the two fields are read from the body unchecked.
    A missing email is bound as NULL and finds no row.  A missing password
    reaches [bcrypt.compare] only when a row was found; [compare] then
    rejects (it requires both arguments), the handler has no [catch], and
    the request gets no response from it. *)
Definition login (email password : Js.field) (s : session) (w : World)
  : response * session :=
  match Db.get_user_by_email (Db.bind_field email) (db w) with
  | None => (Render "login" (error_only "Invalid credentials."), s)
  | Some user =>
      match password with
      | None => (Rejected, s)
      | Some password =>
          let ok := bcrypt_compare password (User.password_hash user) in
          if negb ok then (Render "login" (error_only "Invalid credentials."), s)
          else (Redirect "/dashboard", Some (session_user user))
      end
  end.

(** [app.post('/login')] for a body that carries both fields, as the login
    form posts it. *)
Definition post_login (email password : string) (s : session) (w : World)
  : response * session :=
  login (Some email) (Some password) s w.

(** [app.post('/logout')]: the session is destroyed. *)
Definition post_logout : response * session := (Redirect "/login", None).

(** [app.post('/submit')], after [requireAuth] and the intake. *)
Definition post_submit (u : Js.object) (body : Body.submission)
    (files : Intake.files) (now : Z) (w : World) : response * World :=
  let race_date := Body.race_date body in
  let race_time := Body.race_time body in
  let series := Body.series body in
  if Js.falsy race_date || Js.falsy race_time || Js.falsy series
  then (Render "submit"
          {| user := Some u; error := Some "Please fill required fields.";
             submission := None |}, w)
  else
    let replayPath :=
      match Intake.replay files with
      | f :: _ => Js.or_null (Some (Intake.filename f))
      | [] => None
      end in
    let telemetryFiles := map Intake.filename (Intake.telemetry files) in
    match run (Db.InsertSubmission (Db.bind (Js.prop u "id"))
                 (Js.text race_date) (Js.text race_time) (Js.text series)
                 (if Js.truthy (Body.is_protest body) then 1 else 0)
                 (Js.or_null (Body.protest_text body))
                 replayPath telemetryFiles) now w with
    | None => (Rejected, w)
    | Some w' => (Redirect "/dashboard", w')
    end.

Definition not_found : response :=
  Send 404 "Submission not found or you do not have permission to edit it.".

(** [app.get('/edit/:id')], after [requireAuth].  The route is not behind
    [csrfProtection], so for a row that is found the handler throws where it
    builds the locals ([req.csrfToken] is not a function) and renders
    nothing. *)
Definition get_edit (u : Js.object) (id : string) (w : World) : response :=
  match Db.get_submission (Db.Text id) (Db.bind (Js.prop u "id")) (db w) with
  | None => not_found
  | Some submission => Rejected
  end.

(** The replay half of the file handling of an edit: the path to persist
    and the world after the old file is removed. *)
Definition replace_replay (existing : option string) (files : Intake.files)
    (w : World) : option string * World :=
  let replayPath := existing in
  match Intake.replay files with
  | f :: _ =>
      let w1 :=
        if Js.truthy replayPath
        then unlink_if_exists (Intake.replayDir, Js.text replayPath) w
        else w in
      (Some (Intake.filename f), w1)
  | [] => (replayPath, w)
  end.

(** The telemetry half: all old files go, the new names replace the list. *)
Definition replace_telemetry (existing : list string) (files : Intake.files)
    (w : World) : list string * World :=
  let telemetryFiles := existing in
  if bool_decide (0 < length (Intake.telemetry files))%nat
  then
    let w1 := unlink_each Intake.telemetryDir telemetryFiles w in
    (map Intake.filename (Intake.telemetry files), w1)
  else (telemetryFiles, w).

(** The UPDATE of an edit with its nine parameters. *)
Definition edit_statement (u : Js.object) (id : string) (body : Body.submission)
    (replayPath : option string) (telemetryFiles : list string) : Db.statement :=
  Db.UpdateSubmission
    (Js.text (Body.race_date body)) (Js.text (Body.race_time body))
    (Js.text (Body.series body))
    (if Js.truthy (Body.is_protest body) then 1 else 0)
    (Js.or_null (Body.protest_text body))
    replayPath telemetryFiles
    (Db.Text id) (Db.bind (Js.prop u "id")).

(** [app.post('/edit/:id')], after [requireAuth] and the intake. *)
Definition post_edit (u : Js.object) (id : string) (body : Body.submission)
    (files : Intake.files) (now : Z) (w : World) : response * World :=
  let submissionId := Db.Text id in
  let race_date := Body.race_date body in
  let race_time := Body.race_time body in
  let series := Body.series body in
  (* Verify user owns this submission *)
  match Db.get_submission submissionId (Db.bind (Js.prop u "id")) (db w) with
  | None => (not_found, w)
  | Some existingSubmission =>
    if Js.falsy race_date || Js.falsy race_time || Js.falsy series
    then (Render "submit"
            {| user := Some u; error := Some "Please fill required fields.";
               submission := Some existingSubmission |}, w)
    else
      (* keep existing files if no new ones uploaded *)
      let '(replayPath, w1) :=
        replace_replay (Submission.replay_file existingSubmission) files w in
      let '(telemetryFiles, w2) :=
        replace_telemetry
          (default [] (Submission.telemetry_files existingSubmission)) files w1 in
      match run (edit_statement u id body replayPath telemetryFiles) now w2 with
      | None => (Rejected, w2)
      | Some w' => (Redirect "/dashboard", w')
      end
  end.

(** [app.post('/admin/users/:id/make-admin')], after the two auth helpers. *)
Definition post_make_admin (id : string) (now : Z) (w : World) : response * World :=
  match run (Db.UpdateUserRole "admin" (Db.Text id)) now w with
  | None => (Rejected, w)
  | Some w' => (Redirect "/admin", w')
  end.

(** *** Routes: the middleware chain in front of each handler *)

Inductive request :=
| PostRegister (body : Body.registration) (salt : string)
| PostLogin (email password : Js.field)
| PostLogout
| PostSubmit (body : Body.submission) (replay telemetry : list Intake.part)
| GetEdit (id : string)
| PostEdit (id : string) (body : Body.submission) (replay telemetry : list Intake.part)
| PostMakeAdmin (id : string).

(** The running server: the world and the session store, by session id. *)
Record server := {
  world : World;
  sessions : gmap string Js.object;
}.

Definition boot : server := {| world := initial; sessions := ∅ |}.

(** [req.session.user = u] / [req.session.destroy()] for session [sid]. *)
Definition save_session (sid : string) (s : session) (m : gmap string Js.object)
  : gmap string Js.object :=
  match s with
  | Some u => <[sid := u]> m
  | None => delete sid m
  end.

(** A handler behind [requireAuth]: it reads [req.session.user]. *)
Definition behind_auth (s : session) (w : World)
    (handler : Js.object -> response * World) : response * World :=
  match requireAuth s with
  | Some res => (res, w)
  | None =>
      match s with
      | Some u => handler u
      | None => (Rejected, w)
      end
  end.

(** A handler behind the intake of [upload.fields]. *)
Definition behind_upload (replay telemetry : list Intake.part) (w : World)
    (handler : Intake.files -> World -> response * World) : response * World :=
  match upload_fields replay telemetry w with
  | None => (Rejected, w)
  | Some (files, w1) => handler files w1
  end.

(** One request carrying session id [sid], served at time [now]; the CSRF
    check and the body parsers are taken to have passed. *)
Definition serve (sid : string) (r : request) (now : Z) (sv : server)
  : response * server :=
  let s := sessions sv !! sid in
  let w := world sv in
  match r with
  | PostRegister body salt =>
      let '(res, w') := post_register body salt now w in
      (res, {| world := w'; sessions := sessions sv |})
  | PostLogin email password =>
      let '(res, s') := login email password s w in
      (res, {| world := w; sessions := save_session sid s' (sessions sv) |})
  | PostLogout =>
      let '(res, s') := post_logout in
      (res, {| world := w; sessions := save_session sid s' (sessions sv) |})
  | PostSubmit body replay telemetry =>
      let '(res, w') :=
        behind_auth s w (fun u =>
          behind_upload replay telemetry w (fun files w1 =>
            post_submit u body files now w1)) in
      (res, {| world := w'; sessions := sessions sv |})
  | GetEdit id =>
      let '(res, w') := behind_auth s w (fun u => (get_edit u id w, w)) in
      (res, {| world := w'; sessions := sessions sv |})
  | PostEdit id body replay telemetry =>
      let '(res, w') :=
        behind_auth s w (fun u =>
          behind_upload replay telemetry w (fun files w1 =>
            post_edit u id body files now w1)) in
      (res, {| world := w'; sessions := sessions sv |})
  | PostMakeAdmin id =>
      let '(res, w') :=
        behind_auth s w (fun _ =>
          match requireAdmin s with
          | Some res => (res, w)
          | None => post_make_admin id now w
          end) in
      (res, {| world := w'; sessions := sessions sv |})
  end.

(** Requests in the order they are served: session id, request, time. *)
Fixpoint serve_all (rs : list (string * request * Z)) (sv : server) : server :=
  match rs with
  | [] => sv
  | (sid, r, now) :: rs => serve_all rs (snd (serve sid r now sv))
  end.

End Handlers.

(** ** A concrete run, used to exercise the statements below *)

Module Example.

(** A stand-in for bcrypt: the hash is the password behind a marker. *)
Definition plain : Bcrypt :=
  {| bcrypt_hash := fun data _ _ => "$" +:+ data;
     bcrypt_compare := fun data h => bool_decide (h = "$" +:+ data) |}.

(** A stand-in for SQLite's conversion, for the runs below: it converts
    the decimal integers (an optional [-] and digits) and nothing else.
    The runs pass it the decimal texts of ids only, and on those every
    conversion agrees ([Db.integer_of_decimal]). *)
#[export] Instance decimal : Db.Affinity.
Proof.
  refine {| Db.integer_of_text := fun s => option_map Z.of_int (NilZero.int_of_string s) |}.
  intros n. unfold Js.template_number. rewrite NilZero.isi.
  - simpl. by rewrite DecimalZ.of_to.
  - destruct n; simpl; [done|intros [= Hp]|done].
    by apply DecimalPos.Unsigned.to_uint_nonnil in Hp.
  - destruct n; simpl; [done|done|intros [= Hp]].
    by apply DecimalPos.Unsigned.to_uint_nonnil in Hp.
Defined.

Definition env : environment := {| ADMIN_CODE := None |}.

Definition alice : Body.registration :=
  {| Body.name := Some "Alice"; Body.email := Some "a@x.com";
     Body.password := Some "pw1"; Body.admin_code := Some "" |}.

Definition bob : Body.registration :=
  {| Body.name := Some "Bob"; Body.email := Some "b@x.com";
     Body.password := Some "pw2"; Body.admin_code := Some "admin123" |}.


Definition race : Body.submission :=
  {| Body.race_date := Some "2024-01-01"; Body.race_time := Some "14:00";
     Body.series := Some "GT3"; Body.is_protest := None;
     Body.protest_text := None |}.

Definition lap : Intake.part := {| Intake.originalname := "lap.rpy"; Intake.clock := 7 |}.
Definition trace1 : Intake.part := {| Intake.originalname := "t.csv"; Intake.clock := 5 |}.
Definition trace2 : Intake.part := {| Intake.originalname := "t2.csv"; Intake.clock := 9 |}.

(** Alice and Bob register, Alice logs in and submits a race with a replay
    and one telemetry file. *)
Definition history : list (string * request * Z) :=
  [ ("a", PostRegister alice "s1", 1);
    ("b", PostRegister bob "s2", 2);
    ("a", PostLogin (Some "a@x.com") (Some "pw1"), 3);
    ("b", PostLogin (Some "b@x.com") (Some "pw2"), 4);
    ("a", PostSubmit race [lap] [trace1], 5) ].

(** The server after [history], and its world. *)
Definition started : server := serve_all (H := plain) env history boot.
Definition stored : World := world started.

(** What Alice's and Bob's sessions hold. *)
Definition alice_session : Js.object :=
  {[ "id" := Js.Num 1; "name" := Js.Str "Alice";
     "role" := Js.Str "driver"; "email" := Js.Str "a@x.com" ]}.

Definition bob_session : Js.object :=
  {[ "id" := Js.Num 2; "name" := Js.Str "Bob";
     "role" := Js.Str "admin"; "email" := Js.Str "b@x.com" ]}.

(** Alice's submission as stored. *)
Definition alice_row : Submission.t :=
  {| Submission.id := 1; Submission.user_id := 1;
     Submission.race_date := "2024-01-01"; Submission.race_time := "14:00";
     Submission.series := "GT3"; Submission.is_protest := 0;
     Submission.protest_text := None;
     Submission.replay_file := Some "7-lap.rpy";
     Submission.telemetry_files := Some ["5-t.csv"];
     Submission.created_at := 5 |}.

(** The form of an edit that turns the race into a protest. *)
Definition protest : Body.submission :=
  {| Body.race_date := Some "2024-01-01"; Body.race_time := Some "14:00";
     Body.series := Some "GT4"; Body.is_protest := Some "on";
     Body.protest_text := Some "contact at turn 1" |}.

(** An edit with a new replay file: the intake has stored it. *)
Definition lap2 : Intake.part := {| Intake.originalname := "lap 2.rpy"; Intake.clock := 11 |}.
Definition replay_upload : World * list Intake.file :=
  store_parts Intake.replayDir stored [lap2].
Definition replay_files : Intake.files :=
  {| Intake.replay := replay_upload.2; Intake.telemetry := [] |}.

(** An edit with a new telemetry file. *)
Definition telemetry_upload : World * list Intake.file :=
  store_parts Intake.telemetryDir stored [trace2].
Definition telemetry_files : Intake.files :=
  {| Intake.replay := []; Intake.telemetry := telemetry_upload.2 |}.

(** An edit that uploads [t.csv] again while the clock reads 5 as it did at
    the submit: the generated name is the one already attached. *)
Definition reupload : World * list Intake.file :=
  store_parts Intake.telemetryDir stored [trace1].
Definition reupload_files : Intake.files :=
  {| Intake.replay := []; Intake.telemetry := reupload.2 |}.

End Example.

(** ** The vocabulary of the statements *)

(** Every character of [s] passes [p]. *)
Fixpoint every (p : ascii -> bool) (s : string) : bool :=
  match s with
  | EmptyString => true
  | String c r => p c && every p r
  end.

(** The email is the email of some row of [users]. *)
Definition email_in_use (email : string) (w : World) : Prop :=
  exists u, u ∈ Db.users (db w) /\ User.email u = email.

(** The supplied admin code is non-empty and equals the configured secret. *)
Definition code_matches (env : environment) (body : Body.registration) : Prop :=
  exists c, Body.admin_code body = Some c /\ c <> "" /\ c = admin_secret env.


(** The attempt fails: no user has the email, or the user looked up by the
    email has a hash the password does not compare to. *)
Definition login_fails `{Bcrypt} (email password : string) (w : World) : Prop :=
  ~ email_in_use email w
  \/ exists user, Db.get_user_by_email (Db.Text email) (db w) = Some user
       /\ bcrypt_compare password (User.password_hash user) = false.

(** The property names of a stored session user. *)
Definition session_fields : gset string := {[ "id"; "name"; "role"; "email" ]}.

(** Every stored session is the object literal of a login. *)
Definition sessions_clean (sv : server) : Prop :=
  forall sid o, sessions sv !! sid = Some o -> exists user, o = session_user user.

(** [WHERE id = ? AND user_id = ?] with the parameters of an edit. *)
Definition edit_key `{Db.Affinity} (u : Js.object) (id : string) (r : Submission.t) : bool :=
  Db.owned_by (Db.Text id) (Db.bind (Js.prop u "id")) r.

(** The three required fields of the form are filled in. *)
Definition required_filled (body : Body.submission) : Prop :=
  Js.truthy (Body.race_date body) = true
  /\ Js.truthy (Body.race_time body) = true
  /\ Js.truthy (Body.series body) = true.

(** The row an edit writes over [r]. *)
Definition edited_row (body : Body.submission) (replayPath : option string)
    (telemetryFiles : list string) (r : Submission.t) : Submission.t :=
  Db.set_submission
    (Js.text (Body.race_date body)) (Js.text (Body.race_time body))
    (Js.text (Body.series body))
    (if Js.truthy (Body.is_protest body) then 1 else 0)
    (Js.or_null (Body.protest_text body))
    replayPath telemetryFiles r.

(** The telemetry names a row refers to: [JSON.parse(telemetry_files || '[]')]. *)
Definition telemetry_refs (r : Submission.t) : list string :=
  default [] (Submission.telemetry_files r).

(** Every file name a row refers to is made of characters of the class. *)
Definition row_names_safe (r : Submission.t) : Prop :=
  (forall n, Submission.replay_file r = Some n -> every Intake.safe_char n = true)
  /\ (forall n, n ∈ telemetry_refs r -> every Intake.safe_char n = true).

Definition names_safe (w : World) : Prop :=
  forall r, r ∈ Db.submissions (db w) -> row_names_safe r.

Definition files_safe (files : Intake.files) : Prop :=
  (forall f, f ∈ Intake.replay files -> every Intake.safe_char (Intake.filename f) = true)
  /\ (forall f, f ∈ Intake.telemetry files -> every Intake.safe_char (Intake.filename f) = true).

(** The telemetry half of the replacement policy read to the letter: after
    an edit with new telemetry files every old file is gone from the
    directory, the row lists exactly the new names, and none of the old
    names is listed any more. *)
Definition telemetry_replaced_outright `{Db.Affinity} (u : Js.object) (id : string)
    (body : Body.submission) (files : Intake.files) (now : Z) (w : World) : Prop :=
  forall existing,
    Db.get_submission (Db.Text id) (Db.bind (Js.prop u "id")) (db w) = Some existing ->
    required_filled body ->
    (0 < length (Intake.telemetry files))%nat ->
    exists w' r',
      post_edit u id body files now w = (Redirect "/dashboard", w')
      /\ Db.get_submission (Db.Text id) (Db.bind (Js.prop u "id")) (db w') = Some r'
      /\ (forall name, name ∈ telemetry_refs existing ->
            (Intake.telemetryDir, name) ∉ fs w')
      /\ Submission.telemetry_files r' = Some (map Intake.filename (Intake.telemetry files))
      /\ (forall name, name ∈ telemetry_refs existing -> name ∉ telemetry_refs r').

(** ** The routes, the store and the script beyond the edit and the login *)

(** The routes that sit behind [requireAuth]. *)
Definition gated (r : request) : bool :=
  match r with
  | PostSubmit _ _ _ | GetEdit _ | PostEdit _ _ _ _ | PostMakeAdmin _ => true
  | PostRegister _ _ | PostLogin _ _ | PostLogout => false
  end.

(** The statement a request can pass to [run], by route. *)
Definition issued `{Bcrypt} (env : environment) (sid : string) (r : request)
    (sv : server) (st : Db.statement) : Prop :=
  match r with
  | PostRegister body salt =>
      exists role,
        st = Db.InsertUser (Js.text (Body.name body)) (Js.text (Body.email body))
               (bcrypt_hash (Js.text (Body.password body)) 10 salt) role
        /\ ((code_matches env body /\ role = "admin")
            \/ (~ code_matches env body /\ role = "driver"))
  | PostSubmit body _ _ =>
      exists o replayPath telemetryFiles,
        sessions sv !! sid = Some o
        /\ st = Db.InsertSubmission (Db.bind (Js.prop o "id"))
                  (Js.text (Body.race_date body)) (Js.text (Body.race_time body))
                  (Js.text (Body.series body))
                  (if Js.truthy (Body.is_protest body) then 1 else 0)
                  (Js.or_null (Body.protest_text body))
                  replayPath telemetryFiles
  | PostEdit id body _ _ =>
      exists o replayPath telemetryFiles,
        sessions sv !! sid = Some o
        /\ st = edit_statement o id body replayPath telemetryFiles
  | PostMakeAdmin id =>
      exists o,
        sessions sv !! sid = Some o
        /\ Js.prop o "role" = Js.Str "admin"
        /\ st = Db.UpdateUserRole "admin" (Db.Text id)
  | PostLogin _ _ | PostLogout | GetEdit _ => False
  end.

(** The keys of the schema: ids are primary keys handed out by the
    AUTOINCREMENT counters, emails are UNIQUE. *)
Definition keys_unique (s : Db.store) : Prop :=
  NoDup (map User.id (Db.users s))
  /\ NoDup (map User.email (Db.users s))
  /\ NoDup (map Submission.id (Db.submissions s))
  /\ 0 <= Db.users_seq s
  /\ 0 <= Db.submissions_seq s
  /\ (forall u, u ∈ Db.users s -> 1 <= User.id u <= Db.users_seq s)
  /\ (forall r, r ∈ Db.submissions s -> 1 <= Submission.id r <= Db.submissions_seq s).

(** The session object carries the id, name and email of a stored user. *)
Definition session_of_user (o : Js.object) (s : Db.store) : Prop :=
  exists user, user ∈ Db.users s
    /\ Js.prop o "id" = Js.Num (User.id user)
    /\ Js.prop o "name" = Js.Str (User.name user)
    /\ Js.prop o "email" = Js.Str (User.email user).

(** Every submission has its owner among the users; every session is the
    session of a stored user. *)
Definition owners_known (sv : server) : Prop :=
  (forall r, r ∈ Db.submissions (db (world sv)) ->
     exists u, u ∈ Db.users (db (world sv)) /\ User.id u = Submission.user_id r)
  /\ (forall sid o, sessions sv !! sid = Some o -> session_of_user o (db (world sv))).

(** Nobody is admin: no row and no session. *)
Definition no_admin (sv : server) : Prop :=
  (forall u, u ∈ Db.users (db (world sv)) -> User.role u = "driver")
  /\ (forall sid o, sessions sv !! sid = Some o -> Js.prop o "role" = Js.Str "driver").

(** [bcrypt.compare(data, await bcrypt.hash(data, 10))] is true. *)
Definition bcrypt_sound `{Bcrypt} : Prop :=
  forall data salt, bcrypt_compare data (bcrypt_hash data 10 salt) = true.

(** The files of the parts of one field, as the intake names them. *)
Definition stored_paths (d : Intake.dir) (ps : list Intake.part) : list Intake.path :=
  map (fun p => (d, Intake.safeName (Intake.clock p) (Intake.originalname p))) ps.

(** The files a row refers to. *)
Definition row_paths (r : Submission.t) : gset Intake.path :=
  (match Submission.replay_file r with
   | Some name => {[ (Intake.replayDir, name) ]}
   | None => ∅
   end) ∪ list_to_set ((fun name => (Intake.telemetryDir, name)) <$> telemetry_refs r).

(** [get('SELECT id, name, email, role FROM users ORDER BY id ASC LIMIT 1')] *)
Fixpoint first_by_id (l : list User.t) : option User.t :=
  match l with
  | [] => None
  | u :: l' =>
      match first_by_id l' with
      | None => Some u
      | Some v => if bool_decide (User.id u <= User.id v) then Some u else Some v
      end
  end.

(** [Number.isSafeInteger(n)]: the integers a JavaScript number holds
    exactly, up to [Number.MAX_SAFE_INTEGER], 2^53 - 1. *)
Definition safe_integer (n : Z) : bool :=
  bool_decide (- 9007199254740991 <= n <= 9007199254740991).

(** How the script [promoteOnlyUserToAdmin] ends. *)
Inductive script_end :=
| Printed (line : string) (w : World)
| Exit1
| Imprecise.

(** The script [promoteOnlyUserToAdmin]: the line it prints and the world
    it leaves.  [Exit1] is the rejected promise that ends in
    [process.exit(1)].  The driver hands [user.id] to the script as a
    JavaScript number; for an id that is not a safe integer that number is
    a rounded one, and what the script then updates and prints is not
    followed here: [Imprecise]. *)
Definition promoteOnlyUserToAdmin `{Db.Affinity} (now : Z) (w : World) : script_end :=
  match first_by_id (Db.users (db w)) with
  | None => Printed "No users found. Nothing to do." w
  | Some user =>
      if safe_integer (User.id user)
      then
        match run (Db.UpdateUserRole "admin" (Db.Integer (User.id user))) now w with
        | None => Exit1
        | Some w' =>
            Printed ("Promoted user " +:+ User.email user +:+ " (id="
                     +:+ Js.template_number (User.id user) +:+ ") to admin.") w'
        end
      else Imprecise
  end.

(** ** Lemmas on the store *)

Section StoreFacts.

Context {A : Type} (P : A -> bool) (f : A -> A).
Hypothesis P_stable : forall x, P (f x) = P x.

Let upd (x : A) : A := if P x then f x else x.

Lemma find_update_Some (l : list A) (x : A) :
  find P l = Some x -> find P (map upd l) = Some (f x).
Proof.
  induction l as [|y l IH]; simpl; [done|].
  subst upd. simpl in *. destruct (P y) eqn:Hy.
  - intros [= <-]. by rewrite P_stable, Hy.
  - rewrite Hy. exact IH.
Qed.

Lemma find_update_None (l : list A) :
  find P l = None -> find P (map upd l) = None.
Proof.
  induction l as [|y l IH]; simpl; [done|].
  subst upd. simpl in *. destruct (P y) eqn:Hy; [done|].
  by rewrite Hy.
Qed.

End StoreFacts.

Lemma find_None_iff {A} (P : A -> bool) (l : list A) :
  find P l = None <-> forall x, x ∈ l -> P x = false.
Proof.
  split.
  - intros Hf x Hx. apply list_elem_of_In in Hx.
    by apply (find_none P l Hf).
  - intros Hall. induction l as [|y l IH]; simpl; [done|].
    rewrite (Hall y) by left. apply IH. intros x Hx. apply Hall. by right.
Qed.

Lemma find_Some_elem {A} (P : A -> bool) (l : list A) (x : A) :
  find P l = Some x -> x ∈ l /\ P x = true.
Proof.
  intros Hf. apply find_some in Hf as [Hin HP]. split; [|done].
  by apply list_elem_of_In.
Qed.

(** ** Lemmas on the uploads tree *)

Lemma unlink_if_exists_db p w : db (unlink_if_exists p w) = db w.
Proof. unfold unlink_if_exists. by destruct (existsSync p w). Qed.

Lemma unlink_if_exists_fs p w : fs (unlink_if_exists p w) = fs w ∖ {[p]}.
Proof.
  unfold unlink_if_exists, existsSync. case_bool_decide as Hp; simpl; [done|].
  set_solver.
Qed.

Lemma unlink_if_exists_log p w :
  log (unlink_if_exists p w) = (log w ++ (if existsSync p w then [Unlinked p] else []))%list.
Proof.
  unfold unlink_if_exists. destruct (existsSync p w); simpl; [done|].
  by rewrite app_nil_r.
Qed.

Lemma unlink_each_db d names w : db (unlink_each d names w) = db w.
Proof.
  revert w. induction names as [|n names IH]; intros w; simpl; [done|].
  unfold unlink_each in *. simpl. by rewrite IH, unlink_if_exists_db.
Qed.

Lemma unlink_each_fs d names w :
  fs (unlink_each d names w) = fs w ∖ list_to_set ((fun n => (d, n)) <$> names).
Proof.
  revert w. induction names as [|n names IH]; intros w; simpl.
  - unfold unlink_each. simpl. set_solver.
  - unfold unlink_each in *. simpl. rewrite IH, unlink_if_exists_fs. set_solver.
Qed.

Lemma unlink_each_log d names w :
  exists l, log (unlink_each d names w) = (log w ++ l)%list
    /\ forall e, e ∈ l -> exists n, n ∈ names /\ e = Unlinked (d, n).
Proof.
  revert w. induction names as [|n names IH]; intros w.
  - exists []. split; [by rewrite app_nil_r|]. intros e He. by apply elem_of_nil in He.
  - unfold unlink_each in *. simpl.
    destruct (IH (unlink_if_exists (d, n) w)) as (l & Hl & Hev).
    rewrite unlink_if_exists_log in Hl.
    eexists. split; [rewrite Hl, <- app_assoc; reflexivity|].
    intros e He. apply elem_of_app in He as [He|He].
    + destruct (existsSync (d, n) w); [|by apply elem_of_nil in He].
      apply list_elem_of_singleton in He. exists n. split; [left|done].
    + destruct (Hev e He) as (m & Hm & ->). exists m. split; [by right|done].
Qed.

(** ** The generated file name *)

Module IntakeFacts.

Import Intake.

Lemma every_app p s t : every p (s +:+ t) = every p s && every p t.
Proof.
  induction s as [|c s IH]; simpl; [done|].
  by rewrite IH, andb_assoc.
Qed.

Lemma every_get p s n c : every p s = true -> String.get n s = Some c -> p c = true.
Proof.
  revert n. induction s as [|d s IH]; intros n Hs Hn; simpl in *; [done|].
  apply andb_true_iff in Hs as [Hd Hs].
  destruct n as [|n]; [by injection Hn as <-|]. by eapply IH.
Qed.

Lemma every_uint d : every safe_char (NilEmpty.string_of_uint d) = true.
Proof. induction d; simpl; by rewrite ?IHd. Qed.

Lemma every_template_number n : every safe_char (Js.template_number n) = true.
Proof.
  unfold Js.template_number, NilZero.string_of_int, NilZero.string_of_uint.
  destruct (Z.to_int n) as [d|d]; destruct d; simpl; by rewrite ?every_uint.
Qed.

Lemma every_replace_unsafe s : every safe_char (replace_unsafe s) = true.
Proof.
  induction s as [|c s IH]; simpl; [done|].
  rewrite IH, andb_true_r. by destruct (safe_char c) eqn:Hc.
Qed.

Lemma replace_unsafe_length s : String.length (replace_unsafe s) = String.length s.
Proof. induction s as [|c s IH]; simpl; by rewrite ?IH. Qed.

Lemma replace_unsafe_get s n :
  String.get n (replace_unsafe s)
  = (fun c => if safe_char c then c else "_"%char) <$> String.get n s.
Proof.
  revert n. induction s as [|c s IH]; intros n; simpl; [done|].
  destruct n as [|n]; [done|]. apply IH.
Qed.

Lemma every_safeName now originalname :
  every safe_char (safeName now originalname) = true.
Proof.
  unfold safeName. by rewrite !every_app, every_template_number, every_replace_unsafe.
Qed.

Lemma template_number_head n :
  exists c r, Js.template_number n = String c r /\ c <> "."%char.
Proof.
  unfold Js.template_number, NilZero.string_of_int, NilZero.string_of_uint.
  destruct (Z.to_int n) as [d|d]; destruct d; simpl; eexists _, _; (split; [reflexivity|done]).
Qed.

(** C9: the name under which an upload is stored is the clock reading
    printed in decimal, a hyphen, and the original name with each character
    outside [[A-Za-z0-9_.-]] replaced, position by position, by an
    underscore.  All its characters are in that class, so it holds neither
    [/] nor [\]; it is neither [.] nor [..]: joined to the directory of its
    field it names a file of that directory. *)
Theorem safeName_no_traversal (now : Z) (originalname : string) :
  let name := safeName now originalname in
  name = Js.template_number now +:+ "-" +:+ replace_unsafe originalname
  /\ String.length (replace_unsafe originalname) = String.length originalname
  /\ (forall n, String.get n (replace_unsafe originalname)
        = (fun c => if safe_char c then c else "_"%char) <$> String.get n originalname)
  /\ every safe_char name = true
  /\ (forall n c, String.get n name = Some c -> c <> "/"%char /\ c <> "\"%char)
  /\ name <> "." /\ name <> "..".
Proof.
  simpl. split; [done|]. split; [apply replace_unsafe_length|].
  split; [apply replace_unsafe_get|].
  pose proof (every_safeName now originalname) as Hall.
  split; [done|]. split.
  - intros n c Hc. pose proof (every_get _ _ _ _ Hall Hc) as Hs.
    split; intros ->; discriminate Hs.
  - unfold safeName. destruct (template_number_head now) as (c & r & -> & Hc).
    simpl. split; intros [= ->]; done.
Qed.

End IntakeFacts.

(** ** Registration and login *)

Section Accounts.

Context `{Bcrypt} `{Db.Affinity}.
Variable env : environment.

Lemma email_taken_iff (email : string) (w : World) :
  existsb (fun u => bool_decide (User.email u = email)) (Db.users (db w)) = true
  <-> email_in_use email w.
Proof.
  rewrite existsb_exists. unfold email_in_use. split.
  - intros (u & Hin & Hu). exists u. split; [by apply list_elem_of_In|].
    by apply bool_decide_eq_true in Hu.
  - intros (u & Hin & Hu). exists u. split; [by apply list_elem_of_In|].
    by apply bool_decide_eq_true.
Qed.

Lemma role_choice (body : Body.registration) :
  let role :=
    if Js.truthy (Body.admin_code body)
       && bool_decide (Body.admin_code body = Some (admin_secret env))
    then "admin" else "driver" in
  (code_matches env body /\ role = "admin") \/ (~ code_matches env body /\ role = "driver").
Proof.
  unfold code_matches, Js.truthy, Js.falsy.
  destruct (Body.admin_code body) as [c|]; simpl.
  - destruct (decide (c = "")) as [->|Hc]; simpl.
    + right. split; [|done]. intros (c & [= <-] & Hne & _). done.
    + case_bool_decide as Heq.
      * injection Heq as ->. left. split; [by eexists|done].
      * right. split; [|done]. intros (c' & [= <-] & _ & ->). done.
  - right. split; [|done]. intros (c & Hc & _). done.
Qed.

Lemma validation_passes (a b c : Js.field) :
  Js.truthy a = true -> Js.truthy b = true -> Js.truthy c = true ->
  Js.falsy a || Js.falsy b || Js.falsy c = false.
Proof.
  unfold Js.truthy. intros Ha Hb Hc.
  apply negb_true_iff in Ha, Hb, Hc. by rewrite Ha, Hb, Hc.
Qed.

(** C5: a registration with non-empty name, email and password persists a
    row whose role is admin exactly when the admin code is non-empty and
    equals the configured secret, and driver otherwise; with an email not
    yet in use the row is persisted and the client is sent to the login
    page. *)
Theorem register_role (body : Body.registration) (salt : string) (now : Z) (w : World) :
  Js.truthy (Body.name body) = true ->
  Js.truthy (Body.email body) = true ->
  Js.truthy (Body.password body) = true ->
  let out := post_register env body salt now w in
  (forall row, Db.users (db out.2) = (Db.users (db w) ++ [row])%list ->
     (User.role row = "admin" <-> code_matches env body)
     /\ (~ code_matches env body -> User.role row = "driver"))
  /\ (~ email_in_use (Js.text (Body.email body)) w ->
      out.1 = Redirect "/login"
      /\ exists row, Db.users (db out.2) = (Db.users (db w) ++ [row])%list
           /\ User.name row = Js.text (Body.name body)
           /\ User.email row = Js.text (Body.email body)).
Proof.
  intros Hn He Hp. simpl. unfold post_register, register, run_or_fail.
  rewrite (validation_passes _ _ _ Hn He Hp).
  pose proof (role_choice body) as Hrole. simpl in Hrole.
  unfold run, Db.run.
  destruct (existsb _ _) eqn:Hex; simpl.
  - split.
    + intros row Hrow. apply (f_equal length) in Hrow.
      rewrite length_app in Hrow. simpl in Hrow. lia.
    + intros Hfree. exfalso. apply Hfree. by apply email_taken_iff.
  - split.
    + intros row Hrow. apply app_inv_head in Hrow. injection Hrow as <-. simpl.
      destruct Hrole as [[Hc ->]|[Hc ->]]; split; done.
    + intros _. split; [done|]. eexists. split; [reflexivity|]. done.
Qed.



Lemma get_user_by_email_None (email : string) (w : World) :
  Db.get_user_by_email (Db.Text email) (db w) = None <-> ~ email_in_use email w.
Proof.
  unfold Db.get_user_by_email, email_in_use. rewrite find_None_iff. split.
  - intros Hall (u & Hin & Hu). specialize (Hall u Hin). simpl in Hall.
    by apply bool_decide_eq_false in Hall.
  - intros Hno u Hin. simpl. apply bool_decide_eq_false. intros Hu. apply Hno. eauto.
Qed.

Lemma login_failure (email password : string) (s : session) (w : World) :
  login_fails email password w ->
  post_login email password s w = (Render "login" (error_only "Invalid credentials."), s).
Proof.
  unfold post_login, login. simpl. intros [Hno|(user & Hget & Hcmp)].
  - apply get_user_by_email_None in Hno. by rewrite Hno.
  - by rewrite Hget, Hcmp.
Qed.

(** A login without the password field: the request is left without a
    response exactly when the email is the email of a user, and is answered
    with "Invalid credentials." exactly when it is not; the session is as
    it was either way. *)
Lemma login_password_missing (email : string) (s : session) (w : World) :
  (email_in_use email w <-> login (Some email) None s w = (Rejected, s))
  /\ (~ email_in_use email w
      <-> login (Some email) None s w
          = (Render "login" (error_only "Invalid credentials."), s)).
Proof.
  unfold login. simpl.
  destruct (Db.get_user_by_email _ _) as [user|] eqn:Hget.
  - assert (Hin : email_in_use email w).
    { intros. apply find_Some_elem in Hget as [Hin Hu]. simpl in Hu.
      apply bool_decide_eq_true in Hu. by exists user. }
    split; split; try done.
  - apply get_user_by_email_None in Hget. split; split; done.
Qed.

(** Login attempts that carry a password: two failed attempts, one for an
    email no user has and one with a password that does not compare to the
    stored hash (or any other pair of failed attempts), get the same
    answer: the login page with "Invalid credentials." and the session left
    as it was.  An attempt for an existing email with a password that
    compares to the stored hash stores that user's id and role in the
    session and redirects to the dashboard. *)
Theorem login_indistinguishable (s : session) :
  (forall email1 password1 w1 email2 password2 w2,
     login_fails email1 password1 w1 ->
     login_fails email2 password2 w2 ->
     post_login email1 password1 s w1 = post_login email2 password2 s w2
     /\ post_login email1 password1 s w1
        = (Render "login" (error_only "Invalid credentials."), s))
  /\ (forall email password w user,
        Db.get_user_by_email (Db.Text email) (db w) = Some user ->
        bcrypt_compare password (User.password_hash user) = true ->
        exists o, post_login email password s w = (Redirect "/dashboard", Some o)
          /\ Js.prop o "id" = Js.Num (User.id user)
          /\ Js.prop o "role" = Js.Str (User.role user)
          /\ User.email user = email).
Proof.
  split.
  - intros email1 password1 w1 email2 password2 w2 H1 H2.
    by rewrite !login_failure.
  - intros email password w user Hget Hcmp. exists (session_user user).
    unfold post_login, login. simpl. rewrite Hget, Hcmp. simpl. split; [done|].
    split; [done|]. split; [done|].
    apply find_Some_elem in Hget as [_ Hu]. simpl in Hu.
    by apply bool_decide_eq_true in Hu.
Qed.

End Accounts.

(** ** Sessions *)

Section Sessions.

Context `{Bcrypt} `{Db.Affinity}.
Variable env : environment.

Lemma session_user_dom (user : User.t) : dom (session_user user) = session_fields.
Proof.
  unfold session_user, session_fields.
  rewrite !dom_insert_L, dom_singleton_L. set_solver.
Qed.

Lemma login_session (email password : Js.field) (s : session) (w : World) :
  (login email password s w).2 = s
  \/ exists e p user, email = Some e /\ password = Some p
       /\ user ∈ Db.users (db w) /\ User.email user = e
       /\ bcrypt_compare p (User.password_hash user) = true
       /\ login email password s w = (Redirect "/dashboard", Some (session_user user)).
Proof.
  unfold login.
  destruct (Db.get_user_by_email _ _) as [user|] eqn:Hget; [|by left].
  destruct password as [p|]; [|by left].
  destruct (bcrypt_compare _ _) eqn:Hcmp; simpl; [|by left].
  right. apply find_Some_elem in Hget as [Hin Hu].
  destruct email as [e|]; [|done]. simpl in Hu.
  apply bool_decide_eq_true in Hu. by exists e, p, user.
Qed.

Lemma post_login_session (email password : string) (s : session) (w : World) :
  (post_login email password s w).2 = s
  \/ exists user, user ∈ Db.users (db w) /\ User.email user = email
       /\ bcrypt_compare password (User.password_hash user) = true
       /\ post_login email password s w = (Redirect "/dashboard", Some (session_user user)).
Proof.
  unfold post_login.
  destruct (login_session (Some email) (Some password) s w)
    as [Hsame|(e & p & user & [= <-] & [= <-] & Hin & He & Hcmp & Heq)]; [by left|].
  right. by exists user.
Qed.

Lemma save_session_clean (sid : string) (s : session) (sv : server) (w : World) :
  sessions_clean sv ->
  (forall o, s = Some o -> exists user, o = session_user user) ->
  sessions_clean {| world := w; sessions := save_session sid s (sessions sv) |}.
Proof.
  intros Hsv Hs sid' o. simpl. destruct s as [o'|]; simpl.
  - destruct (decide (sid = sid')) as [->|Hne].
    + rewrite lookup_insert_eq. intros [= <-]. by apply Hs.
    + rewrite lookup_insert_ne by done. apply Hsv.
  - destruct (decide (sid = sid')) as [->|Hne].
    + by rewrite lookup_delete_eq.
    + rewrite lookup_delete_ne by done. apply Hsv.
Qed.

Lemma serve_sessions_clean (sid : string) (r : request) (now : Z) (sv : server) :
  sessions_clean sv -> sessions_clean (serve env sid r now sv).2.
Proof.
  intros Hsv. destruct r; simpl.
  - destruct (post_register _ _ _ _ _); apply Hsv.
  - destruct (login email password (sessions sv !! sid) (world sv))
      as [res s'] eqn:Hlogin. simpl.
    apply save_session_clean; [done|]. intros o ->.
    destruct (login_session email password (sessions sv !! sid) (world sv))
      as [Hsame|(e & p & user & _ & _ & _ & _ & _ & Heq)].
    + rewrite Hlogin in Hsame. simpl in Hsame. symmetry in Hsame. by apply Hsv in Hsame.
    + rewrite Hlogin in Heq. injection Heq as _ ->. by exists user.
  - apply (save_session_clean sid None); [done|]. done.
  - destruct (behind_auth _ _ _); apply Hsv.
  - destruct (behind_auth _ _ _); apply Hsv.
  - destruct (behind_auth _ _ _); apply Hsv.
  - destruct (behind_auth _ _ _); apply Hsv.
Qed.

Lemma serve_all_sessions_clean (rs : list (string * request * Z)) (sv : server) :
  sessions_clean sv -> sessions_clean (serve_all env rs sv).
Proof.
  revert sv. induction rs as [|[[sid r] now] rs IH]; intros sv Hsv; simpl; [done|].
  apply IH. by apply serve_sessions_clean.
Qed.

(** C8: a successful login stores in the session an object with exactly
    the properties id, name, role and email, holding those four columns of
    the user's row; it has no password or password_hash property and is the
    same for two rows that differ only in their hash.  Whatever requests
    the server has served since it started, every stored session is such an
    object. *)
Theorem session_holds_no_credentials :
  (forall user,
     dom (session_user user) = session_fields
     /\ session_user user !! "id" = Some (Js.Num (User.id user))
     /\ session_user user !! "name" = Some (Js.Str (User.name user))
     /\ session_user user !! "role" = Some (Js.Str (User.role user))
     /\ session_user user !! "email" = Some (Js.Str (User.email user))
     /\ session_user user !! "password" = None
     /\ session_user user !! "password_hash" = None)
  /\ (forall user user',
        User.id user = User.id user' -> User.name user = User.name user' ->
        User.role user = User.role user' -> User.email user = User.email user' ->
        session_user user = session_user user')
  /\ (forall email password s w res o,
        post_login email password s w = (res, Some o) ->
        s = Some o
        \/ exists user, user ∈ Db.users (db w) /\ User.email user = email
             /\ bcrypt_compare password (User.password_hash user) = true
             /\ o = session_user user)
  /\ (forall rs sid o,
        sessions (serve_all env rs boot) !! sid = Some o ->
        exists user, o = session_user user /\ dom o = session_fields).
Proof.
  split; [|split; [|split]].
  - intros user. split; [apply session_user_dom|]. by vm_compute.
  - intros user user' Hi Hn Hr He. unfold session_user. by rewrite Hi, Hn, Hr, He.
  - intros email password s w res o Hlogin.
    destruct (post_login_session email password s w)
      as [Hsame|(user & Hin & Hem & Hcmp & Heq)].
    + rewrite Hlogin in Hsame. by left.
    + rewrite Hlogin in Heq. injection Heq as _ ->. right. by exists user.
  - intros rs sid o Hs.
    assert (Hclean : sessions_clean (serve_all env rs boot)).
    { apply serve_all_sessions_clean. intros sid' o' Hl. simpl in Hl.
      by rewrite lookup_empty in Hl. }
    destruct (Hclean sid o Hs) as (user & ->). exists user.
    split; [done|apply session_user_dom].
Qed.

End Sessions.

(** ** Editing a submission *)

Section Edit.

Context `{Db.Affinity}.
Variables (u : Js.object) (id : string) (body : Body.submission).
Variables (files : Intake.files) (now : Z) (w : World).

Lemma edit_key_spec (uid : Z) (r : Submission.t) :
  Js.prop u "id" = Js.Num uid ->
  edit_key u id r = true
  <-> Db.as_integer (Db.Text id) = Some (Submission.id r) /\ Submission.user_id r = uid.
Proof.
  intros Hu. unfold edit_key, Db.owned_by, Db.int_eq. rewrite Hu. simpl.
  destruct (Db.integer_of_text id) as [n|]; simpl.
  - rewrite andb_true_iff, !bool_decide_eq_true. split.
    + by intros [-> ->].
    + by intros [[= <-] ->].
  - split; [done|]. by intros [? _].
Qed.

Lemma replace_replay_db (existing : option string) :
  db (replace_replay existing files w).2 = db w.
Proof.
  unfold replace_replay. destruct (Intake.replay files); simpl; [done|].
  destruct (Js.truthy existing); [apply unlink_if_exists_db|done].
Qed.

Lemma replace_telemetry_db (existing : list string) (w0 : World) :
  db (replace_telemetry existing files w0).2 = db w0.
Proof.
  unfold replace_telemetry. case_bool_decide; simpl; [apply unlink_each_db|done].
Qed.

Lemma post_edit_not_found :
  Db.get_submission (Db.Text id) (Db.bind (Js.prop u "id")) (db w) = None ->
  post_edit u id body files now w = (not_found, w).
Proof. unfold post_edit. by intros ->. Qed.

Lemma post_edit_done (existing : Submission.t) :
  Db.get_submission (Db.Text id) (Db.bind (Js.prop u "id")) (db w) = Some existing ->
  required_filled body ->
  let rr := replace_replay (Submission.replay_file existing) files w in
  let rt := replace_telemetry (telemetry_refs existing) files rr.2 in
  exists w', post_edit u id body files now w = (Redirect "/dashboard", w')
    /\ Db.submissions (db w')
       = map (fun r => if edit_key u id r then edited_row body rr.1 rt.1 r else r)
           (Db.submissions (db w))
    /\ Db.users (db w') = Db.users (db w)
    /\ fs w' = fs rt.2
    /\ log w' = (log rt.2 ++ [Ran (edit_statement u id body rr.1 rt.1)])%list.
Proof.
  intros Hget (Hd & Ht & Hs). simpl. unfold post_edit. rewrite Hget.
  rewrite (validation_passes _ _ _ Hd Ht Hs).
  fold (telemetry_refs existing).
  pose proof (replace_replay_db (Submission.replay_file existing)) as Hdb1.
  destruct (replace_replay _ files w) as [rp w1]. simpl in *.
  pose proof (replace_telemetry_db (telemetry_refs existing) w1) as Hdb2.
  destruct (replace_telemetry _ files w1) as [tf w2]. simpl in *.
  unfold run, edit_statement, Db.run. eexists. split; [reflexivity|]. simpl.
  by rewrite Hdb2, Hdb1.
Qed.

(** The row read back by the key after the edit is the edited first match. *)
Lemma get_after_edit (existing : Submission.t) (rp : option string) (tf : list string)
    (rows : list Submission.t) :
  find (edit_key u id) rows = Some existing ->
  find (edit_key u id)
    (map (fun r => if edit_key u id r then edited_row body rp tf r else r) rows)
  = Some (edited_row body rp tf existing).
Proof. intros Hf. by apply (find_update_Some (edit_key u id) (edited_row body rp tf)). Qed.

End Edit.

Section EditEffects.

Context `{Db.Affinity}.

Variables (u : Js.object) (id : string) (body : Body.submission).
Variables (files : Intake.files) (now : Z) (w : World).

Lemma required_filled_iff :
  Js.falsy (Body.race_date body) || Js.falsy (Body.race_time body)
    || Js.falsy (Body.series body) = false
  <-> required_filled body.
Proof.
  unfold required_filled, Js.truthy. rewrite !negb_true_iff, !orb_false_iff.
  tauto.
Qed.

(** The three ways an edit can end. *)
Lemma post_edit_cases :
  (Db.get_submission (Db.Text id) (Db.bind (Js.prop u "id")) (db w) = None
   /\ post_edit u id body files now w = (not_found, w))
  \/ (exists existing,
        Db.get_submission (Db.Text id) (Db.bind (Js.prop u "id")) (db w) = Some existing
        /\ post_edit u id body files now w
           = (Render "submit"
                {| user := Some u; error := Some "Please fill required fields.";
                   submission := Some existing |}, w))
  \/ (exists existing rp tf w',
        Db.get_submission (Db.Text id) (Db.bind (Js.prop u "id")) (db w) = Some existing
        /\ required_filled body
        /\ post_edit u id body files now w = (Redirect "/dashboard", w')
        /\ Db.submissions (db w')
           = map (fun r => if edit_key u id r then edited_row body rp tf r else r)
               (Db.submissions (db w)))
.
Proof.
  destruct (Db.get_submission _ _ _) as [existing|] eqn:Hget.
  - right.
    destruct (Js.falsy (Body.race_date body) || Js.falsy (Body.race_time body)
              || Js.falsy (Body.series body)) eqn:Hv.
    + left. exists existing. split; [done|]. unfold post_edit. by rewrite Hget, Hv.
    + right. apply required_filled_iff in Hv.
      destruct (post_edit_done u id body files now w existing Hget Hv)
        as (w' & Heq & Hsubs & _).
      eexists existing, _, _, w'. done.
  - left. split; [done|]. by apply post_edit_not_found.
Qed.

Lemma replace_replay_kept (existing : option string) :
  Intake.replay files = [] -> replace_replay existing files w = (existing, w).
Proof. unfold replace_replay. by intros ->. Qed.

Lemma replace_replay_uploaded (existing : option string) (f : Intake.file)
    (rest : list Intake.file) :
  Intake.replay files = f :: rest ->
  (replace_replay existing files w).1 = Some (Intake.filename f)
  /\ fs (replace_replay existing files w).2
     = (if Js.truthy existing
        then fs w ∖ {[(Intake.replayDir, Js.text existing)]} else fs w)
  /\ log (replace_replay existing files w).2
     = (log w ++ (if Js.truthy existing
                     && existsSync (Intake.replayDir, Js.text existing) w
                  then [Unlinked (Intake.replayDir, Js.text existing)] else []))%list.
Proof.
  unfold replace_replay. intros ->. simpl. split; [done|].
  destruct (Js.truthy existing); simpl.
  - by rewrite unlink_if_exists_fs, unlink_if_exists_log.
  - by rewrite app_nil_r.
Qed.

Lemma replace_replay_other_dir (existing : option string) (d : Intake.dir)
    (name : string) :
  d <> Intake.replayDir ->
  (d, name) ∈ fs w -> (d, name) ∈ fs (replace_replay existing files w).2.
Proof.
  intros Hd Hin. unfold replace_replay.
  destruct (Intake.replay files); simpl; [done|].
  destruct (Js.truthy existing); [|done].
  rewrite unlink_if_exists_fs. set_solver.
Qed.

Lemma replace_telemetry_kept (existing : list string) (w0 : World) :
  Intake.telemetry files = [] -> replace_telemetry existing files w0 = (existing, w0).
Proof. unfold replace_telemetry. by intros ->. Qed.

Lemma replace_telemetry_uploaded (existing : list string) (w0 : World) :
  (0 < length (Intake.telemetry files))%nat ->
  replace_telemetry existing files w0
  = (map Intake.filename (Intake.telemetry files),
     unlink_each Intake.telemetryDir existing w0).
Proof. unfold replace_telemetry. intros Hlen. by rewrite bool_decide_eq_true_2. Qed.

Lemma replace_telemetry_fs (existing : list string) (w0 : World) :
  fs (replace_telemetry existing files w0).2 ⊆ fs w0
  /\ forall d name, d <> Intake.telemetryDir ->
       (d, name) ∈ fs w0 -> (d, name) ∈ fs (replace_telemetry existing files w0).2.
Proof.
  unfold replace_telemetry. case_bool_decide; simpl; [|done].
  rewrite unlink_each_fs. split; [set_solver|].
  intros d name Hd Hin. apply elem_of_difference. split; [done|].
  rewrite elem_of_list_to_set, list_elem_of_fmap. intros (n & [= -> _] & _). done.
Qed.

Lemma replace_telemetry_log (existing : list string) (w0 : World) :
  exists l, log (replace_telemetry existing files w0).2 = (log w0 ++ l)%list
    /\ forall e, e ∈ l -> exists n, e = Unlinked (Intake.telemetryDir, n).
Proof.
  unfold replace_telemetry. case_bool_decide; simpl.
  - destruct (unlink_each_log Intake.telemetryDir existing w0) as (l & Hl & Hev).
    exists l. split; [done|]. intros e He. destruct (Hev e He) as (n & _ & ->). eauto.
  - exists []. split; [by rewrite app_nil_r|]. intros e He. by apply elem_of_nil in He.
Qed.

End EditEffects.

(** ** What an edit does *)

Section EditOutcome.

Context `{Db.Affinity}.

(** C1: for an edit by a session user whose id is [uid]: when no row has
    the id the path text stands for (as SQLite converts it, whatever texts
    it takes for numbers) and [uid] as its owner, the answer is 404 and the
    world is as before; whatever the outcome, a row outside that compound
    key (so every row of another user) is the same row afterwards, since
    the UPDATE carries the key of the SELECT; and a submission sent back
    in a rendered page is one under the key. *)
Theorem edit_requires_owner (u : Js.object) (uid : Z) (id : string)
    (body : Body.submission) (files : Intake.files) (now : Z) (w : World) :
  Js.prop u "id" = Js.Num uid ->
  let keyed r :=
    Db.as_integer (Db.Text id) = Some (Submission.id r)
    /\ Submission.user_id r = uid in
  let out := post_edit u id body files now w in
  ((forall r, r ∈ Db.submissions (db w) -> ~ keyed r) ->
     out = (Send 404 "Submission not found or you do not have permission to edit it.", w))
  /\ (forall i r, Db.submissions (db w) !! i = Some r -> ~ keyed r ->
        Db.submissions (db out.2) !! i = Some r)
  /\ (forall i r, Db.submissions (db w) !! i = Some r -> Submission.user_id r <> uid ->
        Db.submissions (db out.2) !! i = Some r)
  /\ length (Db.submissions (db out.2)) = length (Db.submissions (db w))
  /\ (forall view l r, out.1 = Render view l -> submission l = Some r ->
        r ∈ Db.submissions (db w) /\ keyed r).
Proof.
  intros Hu. simpl.
  assert (Hkey : forall r, edit_key u id r = true
            <-> Db.as_integer (Db.Text id) = Some (Submission.id r)
                /\ Submission.user_id r = uid)
    by (intros r; by apply edit_key_spec).
  assert (Hrows : forall i r, Db.submissions (db w) !! i = Some r ->
            edit_key u id r = false ->
            Db.submissions (db (post_edit u id body files now w).2) !! i = Some r).
  { intros i r Hi Hr.
    destruct (post_edit_cases u id body files now w)
      as [[_ ->]|[(ex & _ & ->)|(ex & rp & tf & w' & _ & _ & -> & Hsubs)]];
      simpl; try done.
    rewrite Hsubs, list_lookup_fmap, Hi. simpl. by rewrite Hr. }
  split; [|split; [|split; [|split]]].
  - intros Hnone. apply post_edit_not_found. apply find_None_iff.
    intros r Hr. apply not_true_is_false. rewrite (Hkey r). by apply Hnone.
  - intros i r Hi Hr. apply Hrows; [done|].
    apply not_true_is_false. by rewrite (Hkey r).
  - intros i r Hi Hr. apply Hrows; [done|].
    apply not_true_is_false. rewrite (Hkey r). by intros [_ ?].
  - destruct (post_edit_cases u id body files now w)
      as [[_ ->]|[(ex & _ & ->)|(ex & rp & tf & w' & _ & _ & -> & Hsubs)]];
      simpl; try done.
    by rewrite Hsubs, length_map.
  - intros view l r.
    destruct (post_edit_cases u id body files now w)
      as [[_ ->]|[(ex & Hget & ->)|(ex & rp & tf & w' & _ & _ & -> & Hsubs)]];
      simpl; try done.
    intros [= <- <-]. simpl. intros [= <-].
    apply find_Some_elem in Hget as [Hin Hk]. split; [done|]. by apply Hkey.
Qed.

(** C10: a successful edit keeps the table of submissions row for row;
    each row keeps its id, its owner and its creation time; a row under the
    key has its race date, race time, series, protest flag, protest text,
    replay file and telemetry files rewritten, every other row is
    untouched. *)
Theorem edit_keeps_owner_and_creation (u : Js.object) (id : string)
    (body : Body.submission) (files : Intake.files) (now : Z) (w w' : World) :
  post_edit u id body files now w = (Redirect "/dashboard", w') ->
  length (Db.submissions (db w')) = length (Db.submissions (db w))
  /\ exists rp tf, forall i r, Db.submissions (db w) !! i = Some r ->
       exists r', Db.submissions (db w') !! i = Some r'
         /\ Submission.id r' = Submission.id r
         /\ Submission.user_id r' = Submission.user_id r
         /\ Submission.created_at r' = Submission.created_at r
         /\ (edit_key u id r = false -> r' = r)
         /\ (edit_key u id r = true ->
               Submission.race_date r' = Js.text (Body.race_date body)
               /\ Submission.race_time r' = Js.text (Body.race_time body)
               /\ Submission.series r' = Js.text (Body.series body)
               /\ Submission.is_protest r'
                  = (if Js.truthy (Body.is_protest body) then 1 else 0)
               /\ Submission.protest_text r' = Js.or_null (Body.protest_text body)
               /\ Submission.replay_file r' = rp
               /\ Submission.telemetry_files r' = Some tf).
Proof.
  intros Heq.
  destruct (post_edit_cases u id body files now w)
    as [[_ Hc]|[(ex & _ & Hc)|(ex & rp & tf & w1 & _ & _ & Hc & Hsubs)]];
    rewrite Hc in Heq; try discriminate Heq.
  injection Heq as ->. split; [by rewrite Hsubs, length_map|].
  exists rp, tf. intros i r Hi.
  rewrite Hsubs, list_lookup_fmap, Hi. simpl. eexists. split; [reflexivity|].
  destruct (edit_key u id r); simpl; done.
Qed.

End EditOutcome.

Section EditFiles.

Context `{Db.Affinity}.

Variables (u : Js.object) (id : string) (body : Body.submission).
Variables (files : Intake.files) (now : Z) (w : World).

Lemma edited_rows_under_key (rp : option string) (tf : list string)
    (rows : list Submission.t) (r : Submission.t) :
  r ∈ map (fun r => if edit_key u id r then edited_row body rp tf r else r) rows ->
  edit_key u id r = true ->
  exists r0, r0 ∈ rows /\ r = edited_row body rp tf r0.
Proof.
  intros Hin Hk. apply list_elem_of_fmap in Hin as (r0 & -> & Hin).
  exists r0. split; [done|].
  destruct (edit_key u id r0) eqn:Hk0; [done|]. congruence.
Qed.

(** C3: an edit that passes the ownership check and the validation and
    comes with a new replay file ends with the row's replay_file equal to
    the generated name of that file; the replay file the row referred to
    before is no longer in the replay directory, and if it was there its
    removal comes in the log of effects before the UPDATE that records the
    new name. *)
Theorem edit_replaces_replay (existing : Submission.t) (f : Intake.file)
    (rest : list Intake.file) :
  Db.get_submission (Db.Text id) (Db.bind (Js.prop u "id")) (db w) = Some existing ->
  required_filled body ->
  Intake.replay files = f :: rest ->
  exists w' tf,
    post_edit u id body files now w = (Redirect "/dashboard", w')
    /\ Db.get_submission (Db.Text id) (Db.bind (Js.prop u "id")) (db w')
       = Some (edited_row body (Some (Intake.filename f)) tf existing)
    /\ (forall r, r ∈ Db.submissions (db w') -> edit_key u id r = true ->
          Submission.replay_file r = Some (Intake.filename f))
    /\ (forall old, Submission.replay_file existing = Some old -> old <> "" ->
          ((Intake.replayDir, old) ∉ fs w')
          /\ ((Intake.replayDir, old) ∈ fs w ->
              exists l, log w'
                = (log w ++ (Unlinked (Intake.replayDir, old) :: l)
                   ++ [Ran (edit_statement u id body (Some (Intake.filename f)) tf)])%list)).
Proof.
  intros Hget Hvalid Hreplay.
  destruct (post_edit_done u id body files now w existing Hget Hvalid)
    as (w' & Heq & Hsubs & _ & Hfs & Hlog). simpl in *.
  destruct (replace_replay_uploaded files w (Submission.replay_file existing) f rest Hreplay)
    as (Hrp & Hfs1 & Hlog1).
  rewrite Hrp in *.
  set (w1 := (replace_replay (Submission.replay_file existing) files w).2) in *.
  set (rt := replace_telemetry (telemetry_refs existing) files w1) in *.
  exists w', rt.1. split; [done|]. split; [|split].
  - unfold Db.get_submission. rewrite Hsubs. by apply get_after_edit.
  - intros r Hin Hk. rewrite Hsubs in Hin.
    destruct (edited_rows_under_key _ _ _ _ Hin Hk) as (r0 & _ & ->). done.
  - intros old Hold Hne.
    assert (Htruthy : Js.truthy (Submission.replay_file existing) = true).
    { rewrite Hold. unfold Js.truthy, Js.falsy. by rewrite decide_False. }
    rewrite Hold in *. rewrite Htruthy in *. simpl in *.
    destruct (replace_telemetry_fs files (telemetry_refs existing) w1) as [Hsub _].
    destruct (replace_telemetry_log files (telemetry_refs existing) w1) as (l & Hl & _).
    fold rt in Hsub, Hl. split.
    + rewrite Hfs. set_solver.
    + intros Hin. exists l. rewrite Hlog, Hl, Hlog1.
      unfold existsSync. rewrite bool_decide_eq_true_2 by done.
      by rewrite <- !app_assoc.
Qed.

(** C4: an edit that passes the ownership check and the validation and
    comes without a new replay file leaves the row's replay_file as it was
    and removes no file of the replay directory; without new telemetry
    files the row refers to the same telemetry names as before, in the same
    order, and no file of the telemetry directory is removed. *)
Theorem edit_without_upload_keeps_files (existing : Submission.t) :
  Db.get_submission (Db.Text id) (Db.bind (Js.prop u "id")) (db w) = Some existing ->
  required_filled body ->
  exists w' r',
    post_edit u id body files now w = (Redirect "/dashboard", w')
    /\ Db.get_submission (Db.Text id) (Db.bind (Js.prop u "id")) (db w') = Some r'
    /\ (Intake.replay files = [] ->
          Submission.replay_file r' = Submission.replay_file existing
          /\ forall name, (Intake.replayDir, name) ∈ fs w ->
               (Intake.replayDir, name) ∈ fs w')
    /\ (Intake.telemetry files = [] ->
          telemetry_refs r' = telemetry_refs existing
          /\ (forall names, Submission.telemetry_files existing = Some names ->
                Submission.telemetry_files r' = Some names)
          /\ forall name, (Intake.telemetryDir, name) ∈ fs w ->
               (Intake.telemetryDir, name) ∈ fs w').
Proof.
  intros Hget Hvalid.
  destruct (post_edit_done u id body files now w existing Hget Hvalid)
    as (w' & Heq & Hsubs & _ & Hfs & _). simpl in *.
  set (rr := replace_replay (Submission.replay_file existing) files w) in *.
  set (rt := replace_telemetry (telemetry_refs existing) files rr.2) in *.
  exists w', (edited_row body rr.1 rt.1 existing). split; [done|]. split; [|split].
  - unfold Db.get_submission. rewrite Hsubs. by apply get_after_edit.
  - intros Hnone. subst rr rt.
    rewrite (replace_replay_kept files w _ Hnone) in *. simpl. split; [done|].
    intros name Hin. rewrite Hfs.
    by apply (replace_telemetry_fs files (telemetry_refs existing) w).
  - intros Hnone. subst rt.
    rewrite (replace_telemetry_kept files _ _ Hnone) in *. simpl.
    split; [done|]. split.
    + unfold telemetry_refs. by intros names ->.
    + intros name Hin. rewrite Hfs. by apply replace_replay_other_dir.
Qed.

(** C2, as amended: an edit that passes the ownership check and the
    validation and comes with one or more new telemetry files removes every
    telemetry file the row referred to from the telemetry directory and
    makes the row's list exactly the generated names of the new files, in
    upload order; a name the row referred to before is still referred to
    only if it is also the generated name of one of the new files. *)
Theorem edit_replaces_telemetry (existing : Submission.t) :
  Db.get_submission (Db.Text id) (Db.bind (Js.prop u "id")) (db w) = Some existing ->
  required_filled body ->
  (0 < length (Intake.telemetry files))%nat ->
  let new := map Intake.filename (Intake.telemetry files) in
  exists w' r',
    post_edit u id body files now w = (Redirect "/dashboard", w')
    /\ Db.get_submission (Db.Text id) (Db.bind (Js.prop u "id")) (db w') = Some r'
    /\ (forall name, name ∈ telemetry_refs existing ->
          (Intake.telemetryDir, name) ∉ fs w')
    /\ Submission.telemetry_files r' = Some new
    /\ (forall r, r ∈ Db.submissions (db w') -> edit_key u id r = true ->
          Submission.telemetry_files r = Some new)
    /\ (forall name, name ∈ telemetry_refs existing ->
          name ∈ telemetry_refs r' -> name ∈ new).
Proof.
  intros Hget Hvalid Hlen. simpl.
  destruct (post_edit_done u id body files now w existing Hget Hvalid)
    as (w' & Heq & Hsubs & _ & Hfs & _). simpl in *.
  set (rr := replace_replay (Submission.replay_file existing) files w) in *.
  rewrite (replace_telemetry_uploaded files _ _ Hlen) in *. simpl in *.
  eexists w', _. split; [done|]. split; [|split; [|split; [|split]]].
  - unfold Db.get_submission. rewrite Hsubs. by apply get_after_edit.
  - intros name Hname. rewrite Hfs, unlink_each_fs.
    intros [_ Hnot]%elem_of_difference. apply Hnot.
    rewrite elem_of_list_to_set, list_elem_of_fmap. by exists name.
  - done.
  - intros r Hin Hk. rewrite Hsubs in Hin.
    destruct (edited_rows_under_key _ _ _ _ Hin Hk) as (r0 & _ & ->). done.
  - intros name _ Hin. done.
Qed.

End EditFiles.

(** ** The names the rows refer to *)

Section StoredNames.

Context `{Bcrypt} `{Db.Affinity}.
Variable env : environment.

Lemma store_parts_spec d w ps :
  db (store_parts d w ps).1 = db w
  /\ forall f, f ∈ (store_parts d w ps).2 -> every Intake.safe_char (Intake.filename f) = true.
Proof.
  revert w. induction ps as [|p ps IH]; intros w; simpl.
  - split; [done|]. intros f Hf. by apply elem_of_nil in Hf.
  - destruct (store_parts d _ ps) as [w2 fs2] eqn:Hps.
    specialize (IH {| db := db w; fs := fs w ∪ {[(d, Intake.safeName (Intake.clock p) (Intake.originalname p))]};
                      log := log w |}).
    rewrite Hps in IH. simpl in *. destruct IH as [Hdb Hfs]. split; [done|].
    intros f [->|Hf]%elem_of_cons; [apply IntakeFacts.every_safeName|by apply Hfs].
Qed.

Lemma upload_fields_spec replay telemetry w files w1 :
  upload_fields replay telemetry w = Some (files, w1) ->
  db w1 = db w /\ files_safe files.
Proof.
  unfold upload_fields. destruct (_ && _); [|done].
  pose proof (store_parts_spec (Intake.destination "replay") w replay) as [Hdb1 Hr].
  destruct (store_parts _ w replay) as [wr r].
  pose proof (store_parts_spec (Intake.destination "telemetry") wr telemetry) as [Hdb2 Ht].
  destruct (store_parts _ wr telemetry) as [wt t].
  intros [= <- <-]. simpl in *. split; [congruence|]. by split.
Qed.

Lemma post_submit_names u body files now w :
  names_safe w -> files_safe files -> names_safe (post_submit u body files now w).2.
Proof.
  intros Hw [Hr Ht]. unfold post_submit.
  destruct (_ || _); [done|]. unfold run, Db.run.
  destruct (Db.as_integer _) as [uid|]; [|done]. simpl.
  intros r [Hin|Hin]%elem_of_app; [by apply Hw|].
  apply list_elem_of_singleton in Hin as ->. split; simpl.
  - intros n. destruct (Intake.replay files) as [|f rest] eqn:Hf; [done|].
    unfold Js.or_null. destruct (Js.truthy _); [|done]. intros [= <-].
    apply Hr. left.
  - unfold telemetry_refs. simpl. intros n (f & -> & Hf)%list_elem_of_fmap. by apply Ht.
Qed.

Lemma post_edit_names u id body files now w :
  names_safe w -> files_safe files -> names_safe (post_edit u id body files now w).2.
Proof.
  intros Hw [Hr Ht].
  destruct (Db.get_submission (Db.Text id) (Db.bind (Js.prop u "id")) (db w))
    as [existing|] eqn:Hget; [|by rewrite post_edit_not_found].
  destruct (Js.falsy (Body.race_date body) || Js.falsy (Body.race_time body)
            || Js.falsy (Body.series body)) eqn:Hv.
  { unfold post_edit. by rewrite Hget, Hv. }
  apply required_filled_iff in Hv.
  destruct (post_edit_done u id body files now w existing Hget Hv)
    as (w' & -> & Hsubs & _). simpl in *.
  apply find_Some_elem in Hget as [Hex _]. destruct (Hw existing Hex) as [Hex_r Hex_t].
  intros r. rewrite Hsubs. intros (r0 & -> & Hin)%list_elem_of_fmap.
  destruct (edit_key u id r0); [|by apply Hw].
  split; simpl.
  - unfold replace_replay. destruct (Intake.replay files) as [|f rest] eqn:Hf; simpl.
    + apply Hex_r.
    + intros n [= <-]. apply Hr. left.
  - unfold telemetry_refs. simpl. unfold replace_telemetry.
    case_bool_decide; simpl.
    + intros n (f & -> & Hf)%list_elem_of_fmap. by apply Ht.
    + apply Hex_t.
Qed.

Lemma serve_names sid r now sv :
  names_safe (world sv) -> names_safe (world (serve env sid r now sv).2).
Proof.
  intros Hw. destruct r; simpl.
  - unfold post_register, register, run_or_fail. destruct (_ || _); [done|]. unfold run, Db.run.
    destruct (existsb _ _); done.
  - by destruct (login _ _ _ _).
  - done.
  - unfold behind_auth. destruct (requireAuth _); [done|].
    destruct (sessions sv !! sid) as [u|]; [|done]. unfold behind_upload.
    destruct (upload_fields _ _ _) as [[files w1]|] eqn:Hup; [|done].
    apply upload_fields_spec in Hup as [Hdb Hfiles].
    pose proof (post_submit_names u body files now w1) as Hs.
    destruct (post_submit _ _ _ _ _). simpl in *. apply Hs; [|done].
    unfold names_safe. by rewrite Hdb.
  - unfold behind_auth. destruct (requireAuth _); [done|].
    by destruct (sessions sv !! sid).
  - unfold behind_auth. destruct (requireAuth _); [done|].
    destruct (sessions sv !! sid) as [u|]; [|done]. unfold behind_upload.
    destruct (upload_fields _ _ _) as [[files w1]|] eqn:Hup; [|done].
    apply upload_fields_spec in Hup as [Hdb Hfiles].
    pose proof (post_edit_names u id body files now w1) as Hs.
    destruct (post_edit _ _ _ _ _ _). simpl in *. apply Hs; [|done].
    unfold names_safe. by rewrite Hdb.
  - unfold behind_auth. destruct (requireAuth _); [done|].
    destruct (sessions sv !! sid) as [u|]; [|done].
    destruct (requireAdmin _); [done|]. unfold post_make_admin, run, Db.run. done.
Qed.

(** X11: whatever the server has served, the file names its rows refer to
    are made of characters of the class [[a-zA-Z0-9_.-]] only: no separator
    occurs in a stored reference. *)
Lemma stored_names_safe rs r :
  r ∈ Db.submissions (db (world (serve_all env rs boot))) -> row_names_safe r.
Proof.
  assert (Hall : forall sv, names_safe (world sv) -> names_safe (world (serve_all env rs sv))).
  { induction rs as [|[[sid q] now] rs IH]; intros sv Hsv; simpl; [done|].
    apply IH. by apply serve_names. }
  apply Hall. intros r0 Hr0. by apply elem_of_nil in Hr0.
Qed.

End StoredNames.

(** ** The statements on a concrete run *)

Module Run.

Import Example.

Lemma history_outcome :
  Db.submissions (db stored) = [alice_row]
  /\ map User.role (Db.users (db stored)) = ["driver"; "admin"]
  /\ fs stored = {[ (Intake.replayDir, "7-lap.rpy"); (Intake.telemetryDir, "5-t.csv") ]}
  /\ sessions started !! "a" = Some alice_session
  /\ sessions started !! "b" = Some bob_session.
Proof. repeat split; vm_compute; reflexivity. Qed.

Lemma reupload_outcome :
  upload_fields [] [trace1] stored = Some (reupload_files, reupload.1)
  /\ reupload_files
     = {| Intake.replay := []; Intake.telemetry := [{| Intake.filename := "5-t.csv" |}] |}
  /\ fs reupload.1 = fs stored.
Proof. repeat split; vm_compute; reflexivity. Qed.

(** C2, to the letter, fails: Alice's submission lists ["5-t.csv"]; she edits
    it uploading [t.csv] while the clock reads 5 again.  The intake writes
    over the old file, the handler removes the file of the old name, and the
    row lists the new name, which is the old one. *)
Lemma telemetry_name_reused :
  ~ telemetry_replaced_outright alice_session "1" race reupload_files 5 reupload.1.
Proof.
  intros Hclaim.
  destruct (Hclaim alice_row) as (w' & r' & _ & _ & _ & Hnew & Hgone).
  - vm_compute. reflexivity.
  - repeat split; vm_compute; reflexivity.
  - vm_compute. lia.
  - apply (Hgone "5-t.csv").
    + vm_compute. left.
    + unfold telemetry_refs. rewrite Hnew. vm_compute. left.
Qed.

(** Bob, logged in, posts an edit of Alice's submission. *)
Lemma edit_requires_owner_witness :
  Js.prop bob_session "id" = Js.Num 2
  /\ (let keyed r :=
        Db.as_integer (Db.Text "1") = Some (Submission.id r)
        /\ Submission.user_id r = 2 in
      let out := post_edit bob_session "1" race Intake.no_files 9 stored in
      ((forall r, r ∈ Db.submissions (db stored) -> ~ keyed r) ->
         out = (Send 404 "Submission not found or you do not have permission to edit it.",
                stored))
      /\ (forall i r, Db.submissions (db stored) !! i = Some r -> ~ keyed r ->
            Db.submissions (db out.2) !! i = Some r)
      /\ (forall i r, Db.submissions (db stored) !! i = Some r ->
            Submission.user_id r <> 2 ->
            Db.submissions (db out.2) !! i = Some r)
      /\ length (Db.submissions (db out.2)) = length (Db.submissions (db stored))
      /\ (forall view l r, out.1 = Render view l -> submission l = Some r ->
            r ∈ Db.submissions (db stored) /\ keyed r)).
Proof.
  split; [vm_compute; reflexivity|].
  apply (edit_requires_owner bob_session 2 "1" race Intake.no_files 9 stored).
  vm_compute; reflexivity.
Defined.

(** The same row under another numeral: Alice posts her edit to /edit/1.0.
    Under every conversion that takes the text "1.0" for the integer 1, as
    SQLite's does, it is an edit of her row 1, and Bob's edit at that path
    is answered 404. *)
Lemma edit_at_other_numeral (A : Db.Affinity) :
  Db.integer_of_text "1.0" = Some 1 ->
  (exists w',
     post_edit (H0 := A) alice_session "1.0" protest Intake.no_files 9 stored
     = (Redirect "/dashboard", w')
     /\ map Submission.series (Db.submissions (db w')) = ["GT4"])
  /\ post_edit (H0 := A) bob_session "1.0" protest Intake.no_files 9 stored
     = (not_found, stored).
Proof.
  intros Hconv.
  assert (Hsub : Db.submissions (db stored) = [alice_row]) by (vm_compute; reflexivity).
  assert (Ha : Js.prop alice_session "id" = Js.Num 1) by (vm_compute; reflexivity).
  assert (Hb : Js.prop bob_session "id" = Js.Num 2) by (vm_compute; reflexivity).
  assert (Hka : edit_key (H := A) alice_session "1.0" alice_row = true).
  { apply (edit_key_spec alice_session "1.0" 1 alice_row Ha). by split. }
  assert (Hkb : edit_key (H := A) bob_session "1.0" alice_row = false).
  { apply not_true_iff_false. intros Hk.
    apply (edit_key_spec bob_session "1.0" 2 alice_row Hb) in Hk as [_ Hk]. done. }
  split.
  - assert (Hget : Db.get_submission (H := A) (Db.Text "1.0")
                     (Db.bind (Js.prop alice_session "id")) (db stored) = Some alice_row).
    { unfold Db.get_submission. rewrite Hsub. unfold edit_key in Hka. simpl.
      by rewrite Hka. }
    destruct (post_edit_done alice_session "1.0" protest Intake.no_files 9 stored
                alice_row Hget) as (w' & Heq & Hrows & _).
    { repeat split; vm_compute; reflexivity. }
    exists w'. split; [done|]. rewrite Hrows, Hsub. simpl. by rewrite Hka.
  - apply post_edit_not_found. unfold Db.get_submission. rewrite Hsub.
    unfold edit_key in Hkb. simpl. by rewrite Hkb.
Qed.

(** Alice turns her race into a protest, without files. *)
Lemma edit_keeps_owner_and_creation_witness :
  let w' := (post_edit alice_session "1" protest Intake.no_files 9 stored).2 in
  post_edit alice_session "1" protest Intake.no_files 9 stored
  = (Redirect "/dashboard", w')
  /\ (length (Db.submissions (db w')) = length (Db.submissions (db stored))
      /\ exists rp tf, forall i r, Db.submissions (db stored) !! i = Some r ->
           exists r', Db.submissions (db w') !! i = Some r'
             /\ Submission.id r' = Submission.id r
             /\ Submission.user_id r' = Submission.user_id r
             /\ Submission.created_at r' = Submission.created_at r
             /\ (edit_key alice_session "1" r = false -> r' = r)
             /\ (edit_key alice_session "1" r = true ->
                   Submission.race_date r' = Js.text (Body.race_date protest)
                   /\ Submission.race_time r' = Js.text (Body.race_time protest)
                   /\ Submission.series r' = Js.text (Body.series protest)
                   /\ Submission.is_protest r'
                      = (if Js.truthy (Body.is_protest protest) then 1 else 0)
                   /\ Submission.protest_text r' = Js.or_null (Body.protest_text protest)
                   /\ Submission.replay_file r' = rp
                   /\ Submission.telemetry_files r' = Some tf)).
Proof.
  cbv zeta. split; [vm_compute; reflexivity|].
  apply (edit_keeps_owner_and_creation alice_session "1" protest Intake.no_files 9 stored).
  vm_compute; reflexivity.
Defined.

(** Alice uploads a new replay with her edit. *)
Lemma edit_replaces_replay_witness :
  let f := {| Intake.filename := "11-lap_2.rpy" |} in
  let w := replay_upload.1 in
  (Db.get_submission (Db.Text "1") (Db.bind (Js.prop alice_session "id")) (db w)
   = Some alice_row
   /\ required_filled protest
   /\ Intake.replay replay_files = [f])
  /\ exists w' tf,
       post_edit alice_session "1" protest replay_files 12 w = (Redirect "/dashboard", w')
       /\ Db.get_submission (Db.Text "1") (Db.bind (Js.prop alice_session "id")) (db w')
          = Some (edited_row protest (Some (Intake.filename f)) tf alice_row)
       /\ (forall r, r ∈ Db.submissions (db w') -> edit_key alice_session "1" r = true ->
             Submission.replay_file r = Some (Intake.filename f))
       /\ (forall old, Submission.replay_file alice_row = Some old -> old <> "" ->
             ((Intake.replayDir, old) ∉ fs w')
             /\ ((Intake.replayDir, old) ∈ fs w ->
                 exists l, log w'
                   = (log w ++ (Unlinked (Intake.replayDir, old) :: l)
                      ++ [Ran (edit_statement alice_session "1" protest
                                 (Some (Intake.filename f)) tf)])%list)).
Proof.
  cbv zeta. split; [repeat split; vm_compute; reflexivity|].
  apply (edit_replaces_replay alice_session "1" protest replay_files 12 replay_upload.1
           alice_row {| Intake.filename := "11-lap_2.rpy" |} []).
  - vm_compute; reflexivity.
  - repeat split; vm_compute; reflexivity.
  - vm_compute; reflexivity.
Defined.

(** Alice edits without files. *)
Lemma edit_without_upload_keeps_files_witness :
  (Db.get_submission (Db.Text "1") (Db.bind (Js.prop alice_session "id")) (db stored)
   = Some alice_row
   /\ required_filled protest)
  /\ exists w' r',
       post_edit alice_session "1" protest Intake.no_files 9 stored
       = (Redirect "/dashboard", w')
       /\ Db.get_submission (Db.Text "1") (Db.bind (Js.prop alice_session "id")) (db w')
          = Some r'
       /\ (Intake.replay Intake.no_files = [] ->
             Submission.replay_file r' = Submission.replay_file alice_row
             /\ forall name, (Intake.replayDir, name) ∈ fs stored ->
                  (Intake.replayDir, name) ∈ fs w')
       /\ (Intake.telemetry Intake.no_files = [] ->
             telemetry_refs r' = telemetry_refs alice_row
             /\ (forall names, Submission.telemetry_files alice_row = Some names ->
                   Submission.telemetry_files r' = Some names)
             /\ forall name, (Intake.telemetryDir, name) ∈ fs stored ->
                  (Intake.telemetryDir, name) ∈ fs w').
Proof.
  split; [repeat split; vm_compute; reflexivity|].
  apply (edit_without_upload_keeps_files alice_session "1" protest Intake.no_files 9
           stored alice_row).
  - vm_compute; reflexivity.
  - repeat split; vm_compute; reflexivity.
Defined.

(** Alice uploads a new telemetry file with her edit. *)
Lemma edit_replaces_telemetry_witness :
  let w := telemetry_upload.1 in
  (Db.get_submission (Db.Text "1") (Db.bind (Js.prop alice_session "id")) (db w)
   = Some alice_row
   /\ required_filled protest
   /\ (0 < length (Intake.telemetry telemetry_files))%nat)
  /\ (let new := map Intake.filename (Intake.telemetry telemetry_files) in
      exists w' r',
        post_edit alice_session "1" protest telemetry_files 12 w
        = (Redirect "/dashboard", w')
        /\ Db.get_submission (Db.Text "1") (Db.bind (Js.prop alice_session "id")) (db w')
           = Some r'
        /\ (forall name, name ∈ telemetry_refs alice_row ->
              (Intake.telemetryDir, name) ∉ fs w')
        /\ Submission.telemetry_files r' = Some new
        /\ (forall r, r ∈ Db.submissions (db w') -> edit_key alice_session "1" r = true ->
              Submission.telemetry_files r = Some new)
        /\ (forall name, name ∈ telemetry_refs alice_row ->
              name ∈ telemetry_refs r' -> name ∈ new)).
Proof.
  cbv zeta. split; [repeat split; vm_compute; (reflexivity || lia)|].
  apply (edit_replaces_telemetry alice_session "1" protest telemetry_files 12
           telemetry_upload.1 alice_row).
  - vm_compute; reflexivity.
  - repeat split; vm_compute; reflexivity.
  - vm_compute; lia.
Defined.

(** Bob registers with the default admin code on a fresh server. *)
Lemma register_role_witness :
  (Js.truthy (Body.name bob) = true
   /\ Js.truthy (Body.email bob) = true
   /\ Js.truthy (Body.password bob) = true)
  /\ (let out := post_register (H := plain) env bob "s2" 2 initial in
      (forall row, Db.users (db out.2) = (Db.users (db initial) ++ [row])%list ->
         (User.role row = "admin" <-> code_matches env bob)
         /\ (~ code_matches env bob -> User.role row = "driver"))
      /\ (~ email_in_use (Js.text (Body.email bob)) initial ->
          out.1 = Redirect "/login"
          /\ exists row, Db.users (db out.2) = (Db.users (db initial) ++ [row])%list
               /\ User.name row = Js.text (Body.name bob)
               /\ User.email row = Js.text (Body.email bob))).
Proof.
  split; [repeat split; vm_compute; reflexivity|].
  apply (register_role (H := plain) env bob "s2" 2 initial); vm_compute; reflexivity.
Defined.



(** C7, at the failing input: two login requests that carry no password
    field, one for an email nobody has and one for Alice's.  The first is
    answered with "Invalid credentials."; the second reaches
    [bcrypt.compare] without a password and gets no response.  The two
    outcomes differ, so the response tells whether the email exists. *)
Lemma login_without_password :
  login (H := plain) (Some "nobody@x.com") None None stored
  = (Render "login" (error_only "Invalid credentials."), None)
  /\ login (H := plain) (Some "a@x.com") None None stored = (Rejected, None)
  /\ login (H := plain) (Some "nobody@x.com") None None stored
     <> login (H := plain) (Some "a@x.com") None None stored.
Proof.
  assert (H1 : login (H := plain) (Some "nobody@x.com") None None stored
               = (Render "login" (error_only "Invalid credentials."), None))
    by (vm_compute; reflexivity).
  assert (H2 : login (H := plain) (Some "a@x.com") None None stored = (Rejected, None))
    by (vm_compute; reflexivity).
  split; [done|]. split; [done|]. rewrite H1, H2. discriminate.
Qed.

(** A login for an unknown email and a login for Alice with a wrong
    password; then Alice with her password. *)
Lemma login_indistinguishable_witness :
  (login_fails (H := plain) "nobody@x.com" "pw1" stored
   /\ login_fails (H := plain) "a@x.com" "wrong" stored
   /\ post_login (H := plain) "nobody@x.com" "pw1" None stored
      = post_login (H := plain) "a@x.com" "wrong" None stored
   /\ post_login (H := plain) "nobody@x.com" "pw1" None stored
      = (Render "login" (error_only "Invalid credentials."), None))
  /\ (exists user,
        Db.get_user_by_email (Db.Text "a@x.com") (db stored) = Some user
        /\ bcrypt_compare (Bcrypt := plain) "pw1" (User.password_hash user) = true
        /\ exists o, post_login (H := plain) "a@x.com" "pw1" None stored
                     = (Redirect "/dashboard", Some o)
             /\ Js.prop o "id" = Js.Num (User.id user)
             /\ Js.prop o "role" = Js.Str (User.role user)
             /\ User.email user = "a@x.com").
Proof.
  assert (H1 : login_fails (H := plain) "nobody@x.com" "pw1" stored).
  { left. apply (get_user_by_email_None "nobody@x.com" stored). vm_compute; reflexivity. }
  assert (H2 : login_fails (H := plain) "a@x.com" "wrong" stored).
  { right. eexists. split; vm_compute; reflexivity. }
  destruct (login_indistinguishable (H := plain) None) as [Hfail Hok].
  split.
  - split; [done|]. split; [done|]. by apply Hfail.
  - eexists. split; [vm_compute; reflexivity|]. split; [vm_compute; reflexivity|].
    apply Hok; vm_compute; reflexivity.
Defined.

(** The sessions Alice and Bob hold after [history]. *)
Lemma session_holds_no_credentials_witness :
  sessions started !! "a" = Some alice_session
  /\ exists user, alice_session = session_user user /\ dom alice_session = session_fields.
Proof.
  assert (Ha : sessions started !! "a" = Some alice_session) by (vm_compute; reflexivity).
  split; [done|].
  exact (proj2 (proj2 (proj2 (session_holds_no_credentials (H := plain) env)))
           history "a" alice_session Ha).
Defined.

(** A file name that tries to leave the directory. *)
Lemma safeName_example :
  Intake.safeName 1700000000000 "../../etc/pass wd.rpy"
  = "1700000000000-.._.._etc_pass_wd.rpy".
Proof. vm_compute; reflexivity. Qed.

End Run.

(** ** One request: the statement it runs and the session it writes *)

Section Requests.

Context `{Bcrypt} `{Db.Affinity}.
Variable env : environment.

Lemma save_session_same (sid : string) (m : gmap string Js.object) :
  save_session sid (m !! sid) m = m.
Proof.
  unfold save_session. destruct (m !! sid) as [o|] eqn:Hm.
  - by apply insert_id.
  - by apply delete_id.
Qed.

Lemma serve_all_invariant (I : server -> Prop) :
  (forall sid r now sv, I sv -> I (serve env sid r now sv).2) ->
  forall rs sv, I sv -> I (serve_all env rs sv).
Proof.
  intros Hstep rs. induction rs as [|[[sid r] now] rs IH]; intros sv Hsv; simpl; [done|].
  apply IH. by apply Hstep.
Qed.

Lemma serve_store (sid : string) (r : request) (now : Z) (sv : server) :
  db (world (serve env sid r now sv).2) = db (world sv)
  \/ exists st, issued env sid r sv st
       /\ Db.run st now (db (world sv)) = Some (db (world (serve env sid r now sv).2)).
Proof.
  destruct r; simpl.
  - unfold post_register, register, run_or_fail. destruct (_ || _); [by left|].
    pose proof (role_choice env body) as Hrole. simpl in Hrole.
    unfold run. destruct (Db.run _ _ _) as [s'|] eqn:Hrun; simpl; [|by left].
    right. eexists. split; [|exact Hrun]. eexists. split; [reflexivity|].
    destruct Hrole as [[? ->]|[? ->]]; [by left|by right].
  - left. by destruct (login _ _ _ _).
  - by left.
  - unfold behind_auth. destruct (requireAuth _); [by left|].
    destruct (sessions sv !! sid) as [o|] eqn:Ho; [|by left]. unfold behind_upload.
    destruct (upload_fields _ _ _) as [[files w1]|] eqn:Hup; [|by left].
    apply upload_fields_spec in Hup as [Hdb _].
    unfold post_submit. destruct (_ || _); simpl; [by left|].
    unfold run. rewrite Hdb. destruct (Db.run _ _ _) as [s'|] eqn:Hrun; simpl; [|by left].
    right. eexists. split; [|exact Hrun]. by eexists o, _, _.
  - left. unfold behind_auth. destruct (requireAuth _); [done|].
    by destruct (sessions sv !! sid).
  - unfold behind_auth. destruct (requireAuth _); [by left|].
    destruct (sessions sv !! sid) as [o|] eqn:Ho; [|by left]. unfold behind_upload.
    destruct (upload_fields _ _ _) as [[files w1]|] eqn:Hup; [|by left].
    apply upload_fields_spec in Hup as [Hdb _].
    unfold post_edit. destruct (Db.get_submission _ _ _); [|by left].
    destruct (_ || _); simpl; [by left|].
    pose proof (replace_replay_db files w1 (Submission.replay_file t)) as Hdb1.
    destruct (replace_replay _ _ _) as [rp w2]. simpl in Hdb1.
    pose proof (replace_telemetry_db files (default [] (Submission.telemetry_files t)) w2)
      as Hdb2.
    destruct (replace_telemetry _ _ _) as [tf w3]. simpl in Hdb2.
    right. exists (edit_statement o id body rp tf). split; [by eexists o, _, _|].
    unfold run, edit_statement, Db.run. simpl. by rewrite Hdb2, Hdb1, Hdb.
  - unfold behind_auth. destruct (requireAuth _); [by left|].
    destruct (sessions sv !! sid) as [o|] eqn:Ho; [|by left]. simpl.
    destruct (decide (Js.prop o "role" = Js.Str "admin")) as [Hrole|]; [|by left].
    unfold post_make_admin, run.
    destruct (Db.run _ _ _) as [s'|] eqn:Hrun; simpl; [|by left].
    right. eexists. split; [|exact Hrun]. by exists o.
Qed.

Lemma serve_sessions (sid : string) (r : request) (now : Z) (sv : server) :
  sessions (serve env sid r now sv).2 = sessions sv
  \/ (r = PostLogout /\ sessions (serve env sid r now sv).2 = delete sid (sessions sv))
  \/ (exists email password user,
        r = PostLogin (Some email) (Some password)
        /\ user ∈ Db.users (db (world sv)) /\ User.email user = email
        /\ bcrypt_compare password (User.password_hash user) = true
        /\ (serve env sid r now sv).1 = Redirect "/dashboard"
        /\ sessions (serve env sid r now sv).2 = <[sid := session_user user]> (sessions sv)).
Proof.
  destruct r; simpl.
  - left. by destruct (post_register _ _ _ _ _).
  - destruct (login_session email password (sessions sv !! sid) (world sv))
      as [Hsame|(e & p & user & -> & -> & Hin & He & Hc & Heq)].
    + left. destruct (login _ _ _ _) as [res s']. simpl in *. subst s'.
      apply save_session_same.
    + right. right. exists e, p, user. rewrite Heq. simpl. done.
  - right. by left.
  - left. by destruct (behind_auth _ _ _).
  - left. by destruct (behind_auth _ _ _).
  - left. by destruct (behind_auth _ _ _).
  - left. by destruct (behind_auth _ _ _).
Qed.

End Requests.

(** ** What holds of every state the server reaches *)

Lemma map_update_key {A K} (key : A -> K) (P : A -> bool) (f : A -> A) (l : list A) :
  (forall x, key (f x) = key x) ->
  map key (map (fun x => if P x then f x else x) l) = map key l.
Proof.
  intros Hkey. rewrite map_map. apply map_ext. intros x.
  by destruct (P x).
Qed.

Lemma elem_of_map_update {A} (P : A -> bool) (f : A -> A) (l : list A) (y : A) :
  y ∈ map (fun x => if P x then f x else x) l ->
  exists x, x ∈ l /\ (y = x \/ y = f x).
Proof.
  intros (x & -> & Hx)%list_elem_of_fmap. exists x. split; [done|].
  destruct (P x); auto.
Qed.

Lemma fresh_key {A} (key : A -> Z) (l : list A) (seq : Z) :
  (forall x, x ∈ l -> 1 <= key x <= seq) -> seq + 1 ∉ map key l.
Proof.
  intros Hb (x & Hk & Hx)%list_elem_of_fmap. specialize (Hb x Hx). lia.
Qed.

Lemma run_keys_unique `{Db.Affinity} (st : Db.statement) (now : Z) (s s' : Db.store) :
  keys_unique s -> Db.run st now s = Some s' -> keys_unique s'.
Proof.
  intros (Hid & Hem & Hsid & Hu0 & Hs0 & Hub & Hsb). unfold keys_unique.
  destruct st; simpl.
  - destruct (existsb _ _) eqn:Hex; [done|]. intros [= <-]. simpl.
    rewrite !map_app. simpl. split_and!; try done; try lia.
    + apply NoDup_app. split; [done|]. split; [|apply NoDup_singleton].
      intros x Hx ->%list_elem_of_singleton.
      exact (fresh_key User.id _ _ Hub Hx).
    + apply NoDup_app. split; [done|]. split; [|apply NoDup_singleton].
      intros x (u & -> & Hu)%list_elem_of_fmap Hx%list_elem_of_singleton.
      apply not_true_iff_false in Hex. apply Hex. apply existsb_exists.
      exists u. split; [by apply list_elem_of_In|]. by apply bool_decide_eq_true.
    + intros u [Hu| ->%list_elem_of_singleton]%elem_of_app; [|simpl; lia].
      specialize (Hub u Hu). lia.
  - destruct (Db.as_integer user_id) as [uid|]; [|done]. intros [= <-]. simpl.
    rewrite !map_app. simpl. split_and!; try done; try lia.
    + apply NoDup_app. split; [done|]. split; [|apply NoDup_singleton].
      intros x Hx ->%list_elem_of_singleton.
      exact (fresh_key Submission.id _ _ Hsb Hx).
    + intros r [Hr| ->%list_elem_of_singleton]%elem_of_app; [|simpl; lia].
      specialize (Hsb r Hr). lia.
  - intros [= <-]. simpl. rewrite map_update_key by done.
    split_and!; try done.
    intros r (x & Hx & [->| ->])%elem_of_map_update; simpl; by apply Hsb.
  - intros [= <-]. simpl. rewrite !map_update_key by done.
    split_and!; try done.
    intros u (x & Hx & [->| ->])%elem_of_map_update; simpl; by apply Hub.
Qed.

Section Reachable.

Context `{Bcrypt} `{Db.Affinity}.
Variable env : environment.

Lemma keys_unique_reached (rs : list (string * request * Z)) :
  keys_unique (db (world (serve_all env rs boot))).
Proof.
  apply (serve_all_invariant env (fun sv => keys_unique (db (world sv)))).
  - intros sid r now sv Hsv.
    destruct (serve_store env sid r now sv) as [->|(st & _ & Hrun)]; [done|].
    by eapply run_keys_unique.
  - simpl. unfold keys_unique. simpl. split_and!; try apply NoDup_nil_2; try lia.
    + intros u Hu. by apply elem_of_nil in Hu.
    + intros r Hr. by apply elem_of_nil in Hr.
Qed.

(** X5: in every state the server reaches, user ids, user emails and
    submission ids are without repeats, and every id lies between 1 and the
    counter of its table. *)
Theorem keys_stay_unique (rs : list (string * request * Z)) :
  keys_unique (db (world (serve_all env rs boot))).
Proof. exact (keys_unique_reached rs). Qed.

Lemma session_of_user_run (o : Js.object) (st : Db.statement) (now : Z) (s s' : Db.store) :
  session_of_user o s -> Db.run st now s = Some s' -> session_of_user o s'.
Proof.
  intros (user & Hin & Hi & Hn & He). destruct st; simpl.
  - destruct (existsb _ _); [done|]. intros [= <-]. exists user. simpl.
    split; [apply elem_of_app; by left|done].
  - destruct (Db.as_integer user_id); [|done]. intros [= <-]. by exists user.
  - intros [= <-]. by exists user.
  - intros [= <-]. simpl.
    exists (if Db.int_eq (User.id user) id then Db.set_role role user else user).
    split; [|by destruct (Db.int_eq _ _)].
    apply list_elem_of_fmap. by exists user.
Qed.

Lemma session_user_known (user : User.t) (s : Db.store) :
  user ∈ Db.users s -> session_of_user (session_user user) s.
Proof. intros Hin. exists user. by split. Qed.

Lemma owners_known_serve (sid : string) (r : request) (now : Z) (sv : server) :
  owners_known sv -> owners_known (serve env sid r now sv).2.
Proof.
  intros [Hown Hsess].
  assert (Hsess' : forall sid' o, sessions (serve env sid r now sv).2 !! sid' = Some o ->
            session_of_user o (db (world sv))).
  { intros sid' o.
    destruct (serve_sessions env sid r now sv)
      as [->|[[_ ->]|(email & password & user & _ & Hin & _ & _ & _ & ->)]].
    - apply Hsess.
    - intros [_ Ho]%lookup_delete_Some. by eapply Hsess.
    - destruct (decide (sid = sid')) as [->|Hne].
      + rewrite lookup_insert_eq. intros [= <-]. by apply session_user_known.
      + rewrite lookup_insert_ne by done. apply Hsess. }
  destruct (serve_store env sid r now sv) as [Heq|(st & Hst & Hrun)].
  - split; rewrite Heq; [apply Hown|apply Hsess'].
  - split; [|intros sid' o Ho; eapply session_of_user_run; [by eapply Hsess'|done]].
    revert Hrun. generalize (db (world (serve env sid r now sv).2)). intros s'.
    destruct r; simpl in Hst; try done.
    + destruct Hst as (role & -> & _). simpl.
      destruct (existsb _ _); [done|]. intros [= <-]. simpl. intros r0 Hr0.
      destruct (Hown r0 Hr0) as (u & Hu & Hid). exists u.
      split; [apply elem_of_app; by left|done].
    + destruct Hst as (o & rp & tf & Ho & ->).
      destruct (Hsess sid o Ho) as (user & Hin & Hi & _). simpl. rewrite Hi. simpl.
      intros [= <-]. simpl. intros r0 [Hr0| ->%list_elem_of_singleton]%elem_of_app.
      * by apply Hown.
      * by exists user.
    + destruct Hst as (o & rp & tf & Ho & ->). simpl.
      intros [= <-]. simpl. intros r0 (x & Hx & Hr0)%elem_of_map_update.
      destruct (Hown x Hx) as (u & Hu & Hid). exists u. split; [done|].
      by destruct Hr0 as [->| ->].
    + destruct Hst as (o & Ho & _ & ->). simpl.
      intros [= <-]. simpl. intros r0 Hr0. destruct (Hown r0 Hr0) as (u & Hu & Hid).
      exists (if Db.int_eq (User.id u) (Db.Text id) then Db.set_role "admin" u else u).
      split; [|by destruct (Db.int_eq _ _)].
      apply list_elem_of_fmap. by exists u.
Qed.

Lemma owners_known_reached (rs : list (string * request * Z)) :
  owners_known (serve_all env rs boot).
Proof.
  apply (serve_all_invariant env owners_known).
  - intros sid r now sv. apply owners_known_serve.
  - split.
    + intros r Hr. by apply elem_of_nil in Hr.
    + intros sid o Ho. simpl in Ho. by rewrite lookup_empty in Ho.
Qed.

(** X6: in every state the server reaches, each submission's owner is a
    stored user, and each session carries the id, name and email of a stored
    user. *)
Theorem owners_stay_known (rs : list (string * request * Z)) :
  owners_known (serve_all env rs boot).
Proof. exact (owners_known_reached rs). Qed.

Lemma no_admin_serve (sid : string) (r : request) (now : Z) (sv : server) :
  (forall body salt, r = PostRegister body salt -> ~ code_matches env body) ->
  no_admin sv -> no_admin (serve env sid r now sv).2.
Proof.
  intros Hreg [Hrows Hsess]. split.
  - destruct (serve_store env sid r now sv) as [->|(st & Hst & Hrun)]; [done|].
    revert Hrun. generalize (db (world (serve env sid r now sv).2)). intros s'.
    destruct r; simpl in Hst; try done.
    + destruct Hst as (role & -> & [[Hc _]|[_ ->]]); [by destruct (Hreg body salt)|].
      simpl. destruct (existsb _ _); [done|]. intros [= <-]. simpl.
      intros u [Hu| ->%list_elem_of_singleton]%elem_of_app; [by apply Hrows|done].
    + destruct Hst as (o & rp & tf & _ & ->). simpl.
      destruct (Db.as_integer _); [|done]. by intros [= <-].
    + destruct Hst as (o & rp & tf & _ & ->). simpl. by intros [= <-].
    + destruct Hst as (o & Ho & Hrole & _). rewrite (Hsess sid o Ho) in Hrole. done.
  - intros sid' o.
    destruct (serve_sessions env sid r now sv)
      as [->|[[_ ->]|(email & password & user & _ & Hin & _ & _ & _ & ->)]].
    + apply Hsess.
    + intros [_ Ho]%lookup_delete_Some. by eapply Hsess.
    + destruct (decide (sid = sid')) as [->|Hne].
      * rewrite lookup_insert_eq. intros [= <-].
        change (Js.Str (User.role user) = Js.Str "driver"). by rewrite (Hrows user Hin).
      * rewrite lookup_insert_ne by done. apply Hsess.
Qed.

(** X4: if no registration among the requests served carries an admin code
    that matches the secret, then no user row has the role admin and no
    session has it: the promotion route stays closed to everyone. *)
Theorem no_admin_without_secret (rs : list (string * request * Z)) :
  (forall sid body salt now,
     (sid, PostRegister body salt, now) ∈ rs -> ~ code_matches env body) ->
  no_admin (serve_all env rs boot).
Proof.
  intros Hrs.
  assert (Hgen : forall sv, no_admin sv -> no_admin (serve_all env rs sv)).
  { induction rs as [|[[sid r] now] rs' IH]; intros sv Hsv; simpl; [done|].
    apply IH.
    - intros sid' body salt now' Hin. apply (Hrs sid' body salt now'). by right.
    - apply no_admin_serve; [|done]. intros body salt ->.
      apply (Hrs sid body salt now). left. }
  apply Hgen. split.
  - intros u Hu. by apply elem_of_nil in Hu.
  - intros sid o Ho. simpl in Ho. by rewrite lookup_empty in Ho.
Qed.

End Reachable.

(** ** The gates *)

Section Gates.

Context `{Bcrypt} `{Db.Affinity}.
Variable env : environment.

Lemma int_eq_param (column : Z) (p : Db.param) :
  Db.int_eq column p = true <-> Db.as_integer p = Some column.
Proof.
  unfold Db.int_eq. destruct (Db.as_integer p) as [n|]; [|done].
  rewrite bool_decide_eq_true. split; [by intros ->|by intros [= ->]].
Qed.

Lemma server_eta (sv : server) : {| world := world sv; sessions := sessions sv |} = sv.
Proof. by destruct sv. Qed.

Lemma gated_redirect (sid : string) (r : request) (now : Z) (sv : server) :
  gated r = true ->
  sessions sv !! sid = None ->
  serve env sid r now sv = (Redirect "/login", sv).
Proof.
  intros Hg Hs. destruct r; try discriminate Hg; simpl; rewrite Hs; simpl;
    by rewrite server_eta.
Qed.

(** X1: a request to a route behind [requireAuth] that carries no session is
    answered with a redirect to the login page and leaves the server as it
    was: nothing is stored, not even the files it uploads. *)
Theorem gated_needs_session (sid : string) (r : request) (now : Z) (sv : server) :
  gated r = true ->
  sessions sv !! sid = None ->
  serve env sid r now sv = (Redirect "/login", sv).
Proof. exact (gated_redirect sid r now sv). Qed.

(** X2: a request changes no stored user row and adds at most one, unless
    it is the promotion route called with a session whose role is the string
    admin; called with any other session that route answers 403 Forbidden
    and leaves the server as it was. *)
Theorem roles_change_only_by_admin (sid : string) (r : request) (now : Z) (sv : server) :
  (forall id o, r = PostMakeAdmin id -> sessions sv !! sid = Some o ->
     Js.prop o "role" <> Js.Str "admin") ->
  (exists new, Db.users (db (world (serve env sid r now sv).2))
               = (Db.users (db (world sv)) ++ new)%list
     /\ (length new <= 1)%nat)
  /\ (forall id o, r = PostMakeAdmin id -> sessions sv !! sid = Some o ->
        serve env sid r now sv = (Send 403 "Forbidden", sv)).
Proof.
  intros Hna. split.
  - destruct (serve_store env sid r now sv) as [->|(st & Hst & Hrun)].
    { exists []. split; [by rewrite app_nil_r|simpl; lia]. }
    revert Hrun. generalize (db (world (serve env sid r now sv).2)). intros s'.
    destruct r; simpl in Hst; try done.
    + destruct Hst as (role & -> & _). simpl.
      destruct (existsb _ _); [done|]. intros [= <-]. simpl. eexists [_]. split; [done|simpl; lia].
    + destruct Hst as (o & rp & tf & _ & ->). simpl.
      destruct (Db.as_integer _); [|done]. intros [= <-]. simpl.
      exists []. split; [by rewrite app_nil_r|simpl; lia].
    + destruct Hst as (o & rp & tf & _ & ->). simpl. intros [= <-]. simpl.
      exists []. split; [by rewrite app_nil_r|simpl; lia].
    + destruct Hst as (o & Ho & Hrole & _). by destruct (Hna id o eq_refl Ho).
  - intros id o -> Ho. simpl. rewrite Ho. simpl.
    rewrite decide_False by (by apply (Hna id o)). simpl. by rewrite server_eta.
Qed.

(** X3: the promotion route, once past the gates, redirects to the admin
    page; every user whose id the path text stands for (as SQLite converts
    it, whatever texts it takes for numbers) gets the role admin and keeps
    its other columns, every other user row, the submissions and the files
    are as before; promoting again changes nothing more; and no session is
    rewritten, so a promoted user's open session keeps the role it was
    created with. *)
Theorem make_admin_effect (sid id : string) (now : Z) (sv : server) :
  let w := world sv in
  exists w', post_make_admin id now w = (Redirect "/admin", w')
    /\ Db.submissions (db w') = Db.submissions (db w)
    /\ fs w' = fs w
    /\ length (Db.users (db w')) = length (Db.users (db w))
    /\ (forall i u, Db.users (db w) !! i = Some u ->
          exists u', Db.users (db w') !! i = Some u'
            /\ User.id u' = User.id u /\ User.name u' = User.name u
            /\ User.email u' = User.email u
            /\ User.password_hash u' = User.password_hash u
            /\ User.created_at u' = User.created_at u
            /\ (Db.as_integer (Db.Text id) = Some (User.id u) -> User.role u' = "admin")
            /\ (Db.as_integer (Db.Text id) <> Some (User.id u) -> u' = u))
    /\ (forall now', db (post_make_admin id now' w').2 = db w')
    /\ sessions (serve env sid (PostMakeAdmin id) now sv).2 = sessions sv.
Proof.
  simpl. unfold post_make_admin, run. simpl. eexists. split; [reflexivity|]. simpl.
  split; [done|]. split; [done|]. split; [by rewrite length_map|]. split; [|split].
  - intros i u Hu. rewrite list_lookup_fmap, Hu. simpl. eexists. split; [reflexivity|].
    destruct (Db.int_eq (User.id u) (Db.Text id)) eqn:Hk; simpl; split_and!; try done.
    + intros Hne. destruct Hne. by apply (int_eq_param (User.id u) (Db.Text id)).
    + intros Hid. apply (int_eq_param (User.id u) (Db.Text id)) in Hid. congruence.
  - intros now'. f_equal. rewrite map_map. apply map_ext. intros u.
    destruct (Db.int_eq (User.id u) (Db.Text id)) eqn:Hu; simpl; by rewrite Hu.
  - by destruct (behind_auth _ _ _).
Qed.

(** X13: logging out redirects to the login page, removes the session of
    the caller and no other, leaves the world as it was, and from then on
    every route behind [requireAuth] answers that session id with the
    redirect to the login page. *)
Theorem logout_ends_session (sid : string) (now : Z) (sv : server) :
  let sv' := (serve env sid PostLogout now sv).2 in
  (serve env sid PostLogout now sv).1 = Redirect "/login"
  /\ world sv' = world sv
  /\ sessions sv' !! sid = None
  /\ (forall sid', sid' <> sid -> sessions sv' !! sid' = sessions sv !! sid')
  /\ (forall r now', gated r = true -> serve env sid r now' sv' = (Redirect "/login", sv')).
Proof.
  simpl. split; [done|]. split; [done|].
  assert (Hgone : delete sid (sessions sv) !! sid = None) by apply lookup_delete_eq.
  split; [done|]. split.
  - intros sid' Hne. by apply lookup_delete_ne.
  - intros r now' Hg. by apply gated_redirect.
Qed.

(** X15: a registration with a missing or empty name, email or password is
    answered with "All fields are required." and changes nothing; and no
    registration, whatever its outcome, touches the submissions, the files
    or any session: the new user still has to log in. *)
Theorem register_frame (sid : string) (body : Body.registration) (salt : string)
    (now : Z) (sv : server) :
  let out := serve env sid (PostRegister body salt) now sv in
  ((Js.falsy (Body.name body) = true \/ Js.falsy (Body.email body) = true
    \/ Js.falsy (Body.password body) = true) ->
     out = (Render "register" (error_only "All fields are required."), sv))
  /\ sessions out.2 = sessions sv
  /\ Db.submissions (db (world out.2)) = Db.submissions (db (world sv))
  /\ fs (world out.2) = fs (world sv).
Proof.
  simpl. unfold post_register, register, run_or_fail. split.
  - intros Hf.
    assert (Hv : Js.falsy (Body.name body) || Js.falsy (Body.email body)
                 || Js.falsy (Body.password body) = true).
    { destruct Hf as [->|[->| ->]]; by rewrite ?orb_true_r. }
    rewrite Hv. simpl. by rewrite server_eta.
  - destruct (_ || _); [done|]. unfold run, Db.run.
    by destruct (existsb _ _).
Qed.

End Gates.

(** ** The intake and the submission of a race *)

Lemma safeName_nonempty (now : Z) (originalname : string) :
  Intake.safeName now originalname <> "".
Proof.
  unfold Intake.safeName.
  destruct (IntakeFacts.template_number_head now) as (c & r & -> & _). done.
Qed.

Lemma store_parts_eq (d : Intake.dir) (w : World) (ps : list Intake.part) :
  map Intake.filename (store_parts d w ps).2 = map snd (stored_paths d ps)
  /\ db (store_parts d w ps).1 = db w
  /\ fs (store_parts d w ps).1 = fs w ∪ list_to_set (stored_paths d ps)
  /\ log (store_parts d w ps).1 = log w.
Proof.
  revert w. induction ps as [|p ps IH]; intros w; simpl.
  - split_and!; try done. set_solver.
  - specialize (IH {| db := db w;
                      fs := fs w ∪ {[(d, Intake.safeName (Intake.clock p) (Intake.originalname p))]};
                      log := log w |}).
    destruct (store_parts d _ ps) as [w2 fs2]. simpl in *.
    destruct IH as (Hn & Hdb & Hfs & Hlog). split_and!.
    + by rewrite Hn.
    + done.
    + rewrite Hfs. set_solver.
    + done.
Qed.

Lemma upload_fields_eq (replay telemetry : list Intake.part) (w : World) :
  (upload_fields replay telemetry w = None
   <-> (1 < length replay \/ 5 < length telemetry)%nat)
  /\ (forall files w1, upload_fields replay telemetry w = Some (files, w1) ->
        map Intake.filename (Intake.replay files)
        = map snd (stored_paths Intake.replayDir replay)
        /\ map Intake.filename (Intake.telemetry files)
           = map snd (stored_paths Intake.telemetryDir telemetry)
        /\ db w1 = db w
        /\ fs w1 = fs w ∪ list_to_set (stored_paths Intake.replayDir replay
                                        ++ stored_paths Intake.telemetryDir telemetry)
        /\ log w1 = log w).
Proof.
  unfold upload_fields.
  change (Intake.destination "replay") with Intake.replayDir.
  change (Intake.destination "telemetry") with Intake.telemetryDir.
  pose proof (store_parts_eq Intake.replayDir w replay) as (Hr & Hdb1 & Hfs1 & Hlog1).
  destruct (store_parts Intake.replayDir w replay) as [w1 r]. simpl in *.
  pose proof (store_parts_eq Intake.telemetryDir w1 telemetry) as (Ht & Hdb2 & Hfs2 & Hlog2).
  destruct (store_parts Intake.telemetryDir w1 telemetry) as [w2 t]. simpl in *.
  split.
  - repeat case_bool_decide; simpl; split; try done; intros; lia.
  - intros files w' Hup. destruct (_ && _); [|done]. injection Hup as <- <-. simpl.
    split_and!; try done.
    + congruence.
    + rewrite Hfs2, Hfs1, list_to_set_app_L. set_solver.
    + congruence.
Qed.

(** X14: the intake refuses a request with more than one replay part or
    more than five telemetry parts; otherwise it stores each part under its
    generated name in the directory of its field, hands the names of each
    field to the handler in the order of the parts of that field, removes
    no file and does not touch the store (it unlinks nothing and runs no
    statement: the log is as it was). *)
Theorem upload_fields_stores (replay telemetry : list Intake.part) (w : World) :
  (upload_fields replay telemetry w = None
   <-> (1 < length replay \/ 5 < length telemetry)%nat)
  /\ (forall files w1, upload_fields replay telemetry w = Some (files, w1) ->
        map Intake.filename (Intake.replay files)
        = map snd (stored_paths Intake.replayDir replay)
        /\ map Intake.filename (Intake.telemetry files)
           = map snd (stored_paths Intake.telemetryDir telemetry)
        /\ db w1 = db w
        /\ fs w1 = fs w ∪ list_to_set (stored_paths Intake.replayDir replay
                                        ++ stored_paths Intake.telemetryDir telemetry)
        /\ log w1 = log w).
Proof. exact (upload_fields_eq replay telemetry w). Qed.

Section Submit.

Context `{Bcrypt} `{Db.Affinity}.
Variable env : environment.

Lemma submit_row (sid : string) (o : Js.object) (uid : Z)
    (body : Body.submission) (replay telemetry : list Intake.part) (now : Z)
    (sv : server) :
  sessions sv !! sid = Some o ->
  Js.prop o "id" = Js.Num uid ->
  (length replay <= 1)%nat ->
  (length telemetry <= 5)%nat ->
  required_filled body ->
  exists sv' row,
    serve env sid (PostSubmit body replay telemetry) now sv = (Redirect "/dashboard", sv')
    /\ Db.submissions (db (world sv')) = (Db.submissions (db (world sv)) ++ [row])%list
    /\ Db.users (db (world sv')) = Db.users (db (world sv))
    /\ sessions sv' = sessions sv
    /\ Submission.id row = Db.submissions_seq (db (world sv)) + 1
    /\ Submission.user_id row = uid
    /\ Submission.created_at row = now
    /\ Submission.race_date row = Js.text (Body.race_date body)
    /\ Submission.race_time row = Js.text (Body.race_time body)
    /\ Submission.series row = Js.text (Body.series body)
    /\ Submission.is_protest row = (if Js.truthy (Body.is_protest body) then 1 else 0)
    /\ Submission.protest_text row = Js.or_null (Body.protest_text body)
    /\ Submission.replay_file row = head (map snd (stored_paths Intake.replayDir replay))
    /\ Submission.telemetry_files row
       = Some (map snd (stored_paths Intake.telemetryDir telemetry))
    /\ fs (world sv') = fs (world sv)
         ∪ list_to_set (stored_paths Intake.replayDir replay
                        ++ stored_paths Intake.telemetryDir telemetry)
    /\ row_paths row ⊆ fs (world sv').
Proof.
  intros Ho Hid Hr Ht (Hd & Htm & Hs).
  unfold serve. cbv zeta. rewrite Ho. unfold behind_auth, requireAuth, behind_upload.
  destruct (upload_fields_eq replay telemetry (world sv)) as [Hnone Hsome].
  destruct (upload_fields replay telemetry (world sv)) as [[files w1]|] eqn:Hup.
  2:{ destruct Hnone as [Hnone _]. specialize (Hnone eq_refl). lia. }
  destruct (Hsome files w1 eq_refl) as (Hfr & Hft & Hdb & Hfs & _).
  unfold post_submit. rewrite (validation_passes _ _ _ Hd Htm Hs).
  unfold run. rewrite Hid, Hdb. unfold Db.run, Db.bind, Db.as_integer.
  eexists _, _. split; [reflexivity|]. simpl. split_and!; try done.
  - rewrite <- Hfr. destruct (Intake.replay files) as [|f rest] eqn:Hf; simpl; [done|].
    unfold Js.or_null, Js.truthy, Js.falsy. rewrite decide_False; [done|].
    assert (Hin : Intake.filename f ∈ map snd (stored_paths Intake.replayDir replay)).
    { rewrite <- Hfr. simpl. left. }
    unfold stored_paths in Hin. rewrite map_map in Hin. simpl in Hin.
    apply list_elem_of_fmap in Hin as (p & -> & _). apply safeName_nonempty.
  - by rewrite Hft.
  - unfold row_paths, telemetry_refs. simpl. rewrite Hfs, Hft.
    assert (Hhead : forall name,
              (match Intake.replay files with
               | [] => None
               | f :: _ => Js.or_null (Some (Intake.filename f))
               end) = Some name ->
              (Intake.replayDir, name) ∈ stored_paths Intake.replayDir replay).
    { intros name. destruct (Intake.replay files) as [|f rest] eqn:Hf; [done|].
      unfold Js.or_null. destruct (Js.truthy (Some (Intake.filename f))); [|done].
      intros [= <-].
      assert (Hin : Intake.filename f ∈ map snd (stored_paths Intake.replayDir replay)).
      { rewrite <- Hfr. simpl. left. }
      unfold stored_paths in *. rewrite map_map in Hin. simpl in Hin.
      apply list_elem_of_fmap in Hin as (p & -> & Hp).
      apply list_elem_of_fmap. by exists p. }
    intros p [Hp|Hp]%elem_of_union.
    + destruct (match Intake.replay files with [] => None | _ => _ end) as [name|] eqn:Hn;
        [|by apply elem_of_empty in Hp].
      apply elem_of_singleton in Hp as ->. apply elem_of_union. right.
      apply elem_of_list_to_set, elem_of_app. left. by apply Hhead.
    + apply elem_of_union. right. apply elem_of_list_to_set, elem_of_app. right.
      apply elem_of_list_to_set in Hp.
      apply list_elem_of_fmap in Hp as (name & -> & Hname).
      unfold stored_paths in *. rewrite map_map in Hname. simpl in Hname.
      apply list_elem_of_fmap in Hname as (q & -> & Hq).
      apply list_elem_of_fmap. by exists q.
Qed.

(** X8: a submission by a logged-in user with the required fields and a
    number of files within the limits redirects to the dashboard and appends
    one row: it gets the next id, the session user's id as owner, the time
    of the request as creation time, the fields of the form, the generated
    name of the replay part (NULL without one) and the generated names of the
    telemetry parts in order.  The other rows, the users and the sessions
    are as before, no file is removed, and every file the new row refers to
    is in the uploads tree. *)
Theorem submit_appends_row (sid : string) (o : Js.object) (uid : Z)
    (body : Body.submission) (replay telemetry : list Intake.part) (now : Z)
    (sv : server) :
  sessions sv !! sid = Some o ->
  Js.prop o "id" = Js.Num uid ->
  (length replay <= 1)%nat ->
  (length telemetry <= 5)%nat ->
  required_filled body ->
  exists sv' row,
    serve env sid (PostSubmit body replay telemetry) now sv = (Redirect "/dashboard", sv')
    /\ Db.submissions (db (world sv')) = (Db.submissions (db (world sv)) ++ [row])%list
    /\ Db.users (db (world sv')) = Db.users (db (world sv))
    /\ sessions sv' = sessions sv
    /\ Submission.id row = Db.submissions_seq (db (world sv)) + 1
    /\ Submission.user_id row = uid
    /\ Submission.created_at row = now
    /\ Submission.race_date row = Js.text (Body.race_date body)
    /\ Submission.race_time row = Js.text (Body.race_time body)
    /\ Submission.series row = Js.text (Body.series body)
    /\ Submission.is_protest row = (if Js.truthy (Body.is_protest body) then 1 else 0)
    /\ Submission.protest_text row = Js.or_null (Body.protest_text body)
    /\ Submission.replay_file row = head (map snd (stored_paths Intake.replayDir replay))
    /\ Submission.telemetry_files row
       = Some (map snd (stored_paths Intake.telemetryDir telemetry))
    /\ fs (world sv') = fs (world sv)
         ∪ list_to_set (stored_paths Intake.replayDir replay
                        ++ stored_paths Intake.telemetryDir telemetry)
    /\ row_paths row ⊆ fs (world sv').
Proof. exact (submit_row sid o uid body replay telemetry now sv). Qed.

End Submit.

(** ** Round trips and frames *)

Lemma find_app_last {A} (P : A -> bool) (l : list A) (x : A) :
  find P l = None -> find P (l ++ [x]) = (if P x then Some x else None).
Proof.
  induction l as [|y l IH]; simpl; [done|].
  destruct (P y); [done|]. exact IH.
Qed.

(** The decimal text of an integer denotes it. *)
Lemma as_integer_template `{Db.Affinity} (n : Z) :
  Db.as_integer (Db.Text (Js.template_number n)) = Some n.
Proof. exact (Db.integer_of_decimal n). Qed.

Lemma replace_replay_removed (existing : option string) (files : Intake.files)
    (w : World) (p : Intake.path) :
  p ∈ fs w -> p ∉ fs (replace_replay existing files w).2 ->
  exists old, existing = Some old /\ p = (Intake.replayDir, old).
Proof.
  unfold replace_replay. destruct (Intake.replay files); simpl; [done|].
  unfold Js.truthy, Js.falsy. destruct existing as [old|]; simpl; [|done].
  destruct (decide (old = "")); simpl; [done|].
  rewrite unlink_if_exists_fs. intros Hin Hout. exists old. split; [done|].
  destruct (decide (p = (Intake.replayDir, old))) as [|Hne]; [done|].
  destruct Hout. set_solver.
Qed.

Lemma replace_telemetry_removed (existing : list string) (files : Intake.files)
    (w : World) (p : Intake.path) :
  p ∈ fs w -> p ∉ fs (replace_telemetry existing files w).2 ->
  exists name, name ∈ existing /\ p = (Intake.telemetryDir, name).
Proof.
  unfold replace_telemetry. case_bool_decide; simpl; [|done].
  rewrite unlink_each_fs. intros Hin Hout.
  destruct (decide (p ∈ (list_to_set ((fun n => (Intake.telemetryDir, n)) <$> existing)
                         : gset Intake.path))) as [Hp|Hp].
  - apply elem_of_list_to_set, list_elem_of_fmap in Hp as (name & -> & Hname).
    by exists name.
  - destruct Hout. by apply elem_of_difference.
Qed.

(** X16: an edit adds no file and removes none but files the edited row
    referred to: a file that is gone after the handler ran was the row's
    replay file or one of its telemetry files. *)
Theorem edit_removes_only_row_files `{Db.Affinity} (u : Js.object) (id : string)
    (body : Body.submission) (files : Intake.files) (now : Z) (w : World) :
  let out := post_edit u id body files now w in
  fs out.2 ⊆ fs w
  /\ (forall p, p ∈ fs w -> p ∉ fs out.2 ->
        exists existing,
          Db.get_submission (Db.Text id) (Db.bind (Js.prop u "id")) (db w) = Some existing
          /\ p ∈ row_paths existing).
Proof.
  simpl.
  destruct (Db.get_submission (Db.Text id) (Db.bind (Js.prop u "id")) (db w))
    as [existing|] eqn:Hget; [|by rewrite post_edit_not_found].
  destruct (Js.falsy (Body.race_date body) || Js.falsy (Body.race_time body)
            || Js.falsy (Body.series body)) eqn:Hv.
  { unfold post_edit. rewrite Hget, Hv. done. }
  apply required_filled_iff in Hv.
  destruct (post_edit_done u id body files now w existing Hget Hv)
    as (w' & -> & _ & _ & Hfs & _). simpl in *. rewrite Hfs.
  set (w1 := (replace_replay (Submission.replay_file existing) files w).2).
  assert (Hsub1 : fs w1 ⊆ fs w).
  { intros p Hp. destruct (decide (p ∈ fs w)) as [|Hn]; [done|]. exfalso.
    subst w1. unfold replace_replay in Hp. destruct (Intake.replay files); simpl in Hp; [done|].
    destruct (Js.truthy _); [|done]. rewrite unlink_if_exists_fs in Hp. set_solver. }
  destruct (replace_telemetry_fs files (telemetry_refs existing) w1) as [Hsub2 _].
  split; [set_solver|].
  intros p Hin Hout. exists existing. split; [done|]. unfold row_paths.
  destruct (decide (p ∈ fs w1)) as [Hp1|Hp1].
  - destruct (replace_telemetry_removed _ _ _ _ Hp1 Hout) as (name & Hname & ->).
    apply elem_of_union. right. apply elem_of_list_to_set, list_elem_of_fmap. by exists name.
  - destruct (replace_replay_removed _ _ _ _ Hin Hp1) as (old & -> & ->).
    apply elem_of_union. left. by apply elem_of_singleton.
Qed.

Section RoundTrips.

Context `{Bcrypt} `{Db.Affinity}.
Variable env : environment.

(** X10: an edit by a logged-in user that is refused, because no row is
    under the key or because a required field is empty, still keeps every
    file it uploaded in the uploads tree; the store and the sessions are as
    before. *)
Theorem refused_edit_keeps_uploads (sid : string) (o : Js.object) (id : string)
    (body : Body.submission) (replay telemetry : list Intake.part) (now : Z)
    (sv : server) :
  sessions sv !! sid = Some o ->
  (length replay <= 1)%nat ->
  (length telemetry <= 5)%nat ->
  let out := serve env sid (PostEdit id body replay telemetry) now sv in
  out.1 <> Redirect "/dashboard" ->
  (out.1 = not_found
   \/ exists existing,
        out.1 = Render "submit"
                  {| user := Some o; error := Some "Please fill required fields.";
                     submission := Some existing |})
  /\ db (world out.2) = db (world sv)
  /\ sessions out.2 = sessions sv
  /\ fs (world out.2) = fs (world sv)
       ∪ list_to_set (stored_paths Intake.replayDir replay
                      ++ stored_paths Intake.telemetryDir telemetry).
Proof.
  intros Ho Hr Ht. unfold serve. cbv zeta. rewrite Ho.
  unfold behind_auth, requireAuth, behind_upload.
  destruct (upload_fields_eq replay telemetry (world sv)) as [Hnone Hsome].
  destruct (upload_fields replay telemetry (world sv)) as [[files w1]|] eqn:Hup.
  2:{ destruct Hnone as [Hnone _]. specialize (Hnone eq_refl). lia. }
  destruct (Hsome files w1 eq_refl) as (_ & _ & Hdb & Hfs & _).
  destruct (post_edit_cases o id body files now w1)
    as [[_ ->]|[(ex & _ & ->)|(ex & rp & tf & w' & _ & _ & -> & _)]]; simpl.
  - intros _. split_and!; try done. by left.
  - intros _. split_and!; try done. right. by exists ex.
  - done.
Qed.

(** X7: if bcrypt accepts a password against its own hash, a registration
    that succeeded is followed by a successful login with the same email and
    password: the session then holds the registered name and email, and the
    role admin exactly when the registration carried the secret (driver
    otherwise). *)
Theorem register_then_login (body : Body.registration) (salt : string) (now : Z)
    (w w' : World) (s : session) :
  bcrypt_sound ->
  post_register env body salt now w = (Redirect "/login", w') ->
  exists o,
    post_login (Js.text (Body.email body)) (Js.text (Body.password body)) s w'
    = (Redirect "/dashboard", Some o)
    /\ Js.prop o "name" = Js.Str (Js.text (Body.name body))
    /\ Js.prop o "email" = Js.Str (Js.text (Body.email body))
    /\ (Js.prop o "role" = Js.Str "admin" <-> code_matches env body)
    /\ (~ code_matches env body -> Js.prop o "role" = Js.Str "driver").
Proof.
  intros Hsound. unfold post_register, register, run_or_fail.
  destruct (_ || _); [done|].
  pose proof (role_choice env body) as Hrole. simpl in Hrole.
  unfold run, Db.run.
  destruct (existsb _ _) eqn:Hex; [done|]. intros [= <-].
  unfold post_login, login, Db.get_user_by_email. simpl.
  rewrite find_app_last.
  2:{ apply find_None_iff. intros u Hu. simpl. apply bool_decide_eq_false. intros He.
      apply not_true_iff_false in Hex. apply Hex. apply existsb_exists.
      exists u. split; [by apply list_elem_of_In|]. by apply bool_decide_eq_true. }
  simpl. rewrite bool_decide_eq_true_2 by done. simpl. rewrite Hsound. simpl.
  eexists. split; [reflexivity|]. split; [done|]. split; [done|].
  change (Js.prop (session_user ?u) "role") with (Js.Str (User.role u)). simpl.
  destruct Hrole as [[Hc ->]|[Hc ->]]; split; done.
Qed.

(** X9: in any state the server reaches, after a logged-in user submits a
    race, the SELECT of the edit routes, given the decimal text of the new
    row's id and that user's session, returns the new row; an edit of it by
    that user with the required fields goes through, and an edit posted
    under another user's id is answered 404 and changes nothing. *)
Theorem submitted_row_is_editable (rs : list (string * request * Z)) (sid : string)
    (o : Js.object) (body : Body.submission) (replay telemetry : list Intake.part)
    (now : Z) :
  let sv := serve_all env rs boot in
  sessions sv !! sid = Some o ->
  (length replay <= 1)%nat ->
  (length telemetry <= 5)%nat ->
  required_filled body ->
  exists sv' row uid,
    serve env sid (PostSubmit body replay telemetry) now sv = (Redirect "/dashboard", sv')
    /\ row ∈ Db.submissions (db (world sv'))
    /\ Js.prop o "id" = Js.Num uid
    /\ Db.get_submission (Db.Text (Js.template_number (Submission.id row)))
         (Db.bind (Js.prop o "id")) (db (world sv')) = Some row
    /\ (forall body' files' now', required_filled body' ->
          (post_edit o (Js.template_number (Submission.id row)) body' files' now'
             (world sv')).1 = Redirect "/dashboard")
    /\ (forall o' uid' body' files' now',
          Js.prop o' "id" = Js.Num uid' -> uid' <> uid ->
          post_edit o' (Js.template_number (Submission.id row)) body' files' now' (world sv')
          = (not_found, world sv')).
Proof.
  intros sv Ho Hr Ht Hv.
  destruct (owners_known_reached env rs) as [_ Hsess].
  destruct (Hsess sid o Ho) as (user & _ & Hid & _).
  destruct (keys_unique_reached env rs) as (_ & _ & _ & _ & _ & _ & Hbound).
  destruct (submit_row env sid o (User.id user) body replay telemetry now sv
              Ho Hid Hr Ht Hv)
    as (sv' & row & Hserve & Hsubs & _ & _ & Hrid & Hruid & _).
  exists sv', row, (User.id user). split; [done|].
  split; [rewrite Hsubs; apply elem_of_app; right; left|]. split; [done|].
  assert (Hold : forall uid', find (Db.owned_by
                   (Db.Text (Js.template_number (Submission.id row))) (Db.Integer uid'))
                   (Db.submissions (db (world sv))) = None).
  { intros uid'. apply find_None_iff. intros r Hin. unfold Db.owned_by.
    apply andb_false_iff. left. apply not_true_iff_false.
    rewrite int_eq_param, as_integer_template. intros [= Heq].
    specialize (Hbound r Hin). fold sv in Hbound. lia. }
  assert (Hget : forall uid',
            Db.get_submission (Db.Text (Js.template_number (Submission.id row)))
              (Db.Integer uid') (db (world sv'))
            = if bool_decide (uid' = User.id user) then Some row else None).
  { intros uid'. unfold Db.get_submission. rewrite Hsubs, find_app_last by apply Hold.
    unfold Db.owned_by.
    replace (Db.int_eq (Submission.id row) _) with true
      by (symmetry; apply int_eq_param, as_integer_template).
    simpl. unfold Db.int_eq. simpl. rewrite Hruid.
    case_bool_decide as H1; case_bool_decide as H2; congruence. }
  rewrite Hid. simpl. split; [by rewrite Hget, bool_decide_eq_true_2|]. split.
  - intros body' files' now' Hv'.
    destruct (post_edit_done o (Js.template_number (Submission.id row)) body' files' now'
                (world sv') row) as (w2 & -> & _); [|done|done].
    rewrite Hid. simpl. by rewrite Hget, bool_decide_eq_true_2.
  - intros o' uid' body' files' now' Hid' Hne. apply post_edit_not_found.
    rewrite Hid'. simpl. by rewrite Hget, bool_decide_eq_false_2.
Qed.

End RoundTrips.

(** ** The promotion script *)

Lemma first_by_id_spec (l : list User.t) :
  match first_by_id l with
  | None => l = []
  | Some user => user ∈ l /\ forall v, v ∈ l -> User.id user <= User.id v
  end.
Proof.
  induction l as [|u l IH]; simpl; [done|].
  destruct (first_by_id l) as [v|].
  - destruct IH as [Hv Hmin]. case_bool_decide as Hle.
    + split; [left|]. intros x [->|Hx]%elem_of_cons; [lia|].
      specialize (Hmin x Hx). lia.
    + split; [by right|]. intros x [->|Hx]%elem_of_cons; [lia|by apply Hmin].
  - subst l. split; [left|]. intros x ->%list_elem_of_singleton. lia.
Qed.

(** X12: over a table whose ids are safe integers (the numbers JavaScript
    holds exactly), the script does nothing but print "No users found.
    Nothing to do." on an empty table; otherwise it gives the role admin to
    the user with the smallest id, however many users there are, keeps that
    user's other columns and every other user, submission and file as they
    were, and prints the user's email and id. *)
Theorem promote_first_user `{Db.Affinity} (now : Z) (w : World) :
  (forall u, u ∈ Db.users (db w) -> safe_integer (User.id u) = true) ->
  (Db.users (db w) = [] ->
     promoteOnlyUserToAdmin now w = Printed "No users found. Nothing to do." w)
  /\ (Db.users (db w) <> [] ->
      exists user w',
        user ∈ Db.users (db w)
        /\ (forall v, v ∈ Db.users (db w) -> User.id user <= User.id v)
        /\ promoteOnlyUserToAdmin now w
           = Printed ("Promoted user " +:+ User.email user +:+ " (id="
                      +:+ Js.template_number (User.id user) +:+ ") to admin.") w'
        /\ Db.users (db w')
           = map (fun u => if bool_decide (User.id u = User.id user)
                           then Db.set_role "admin" u else u) (Db.users (db w))
        /\ Db.submissions (db w') = Db.submissions (db w)
        /\ fs w' = fs w).
Proof.
  intros Hsafe.
  unfold promoteOnlyUserToAdmin. pose proof (first_by_id_spec (Db.users (db w))) as Hspec.
  split.
  - intros Hnil. rewrite Hnil in *. done.
  - intros Hne. destruct (first_by_id (Db.users (db w))) as [user|]; [|done].
    destruct Hspec as [Hin Hmin]. rewrite (Hsafe user Hin). unfold run. simpl.
    eexists user, _. split_and!; try done.
Qed.

(** ** What no route does *)

Lemma find_map_stable {A} (P : A -> bool) (g : A -> A) (l : list A) :
  (forall x, P (g x) = P x) -> find P (map g l) = option_map g (find P l).
Proof.
  intros Hg. induction l as [|x l IH]; simpl; [done|].
  rewrite Hg. by destruct (P x).
Qed.

Section Frames.

Context `{Bcrypt} `{Db.Affinity}.
Variable env : environment.

(** X17: a submission by a logged-in user with an empty required field is
    answered with "Please fill required fields." and adds no row, yet the
    files it uploaded stay in the uploads tree: the intake runs before the
    handler checks the form. *)
Theorem refused_submit_keeps_uploads (sid : string) (o : Js.object)
    (body : Body.submission) (replay telemetry : list Intake.part) (now : Z)
    (sv : server) :
  sessions sv !! sid = Some o ->
  (length replay <= 1)%nat ->
  (length telemetry <= 5)%nat ->
  ~ required_filled body ->
  exists sv',
    serve env sid (PostSubmit body replay telemetry) now sv
    = (Render "submit"
         {| user := Some o; error := Some "Please fill required fields.";
            submission := None |}, sv')
    /\ db (world sv') = db (world sv)
    /\ sessions sv' = sessions sv
    /\ fs (world sv') = fs (world sv)
         ∪ list_to_set (stored_paths Intake.replayDir replay
                        ++ stored_paths Intake.telemetryDir telemetry).
Proof.
  intros Ho Hr Ht Hv. unfold serve. cbv zeta. rewrite Ho.
  unfold behind_auth, requireAuth, behind_upload.
  destruct (upload_fields_eq replay telemetry (world sv)) as [Hnone Hsome].
  destruct (upload_fields replay telemetry (world sv)) as [[files w1]|] eqn:Hup.
  2:{ destruct Hnone as [Hnone _]. specialize (Hnone eq_refl). lia. }
  destruct (Hsome files w1 eq_refl) as (_ & _ & Hdb & Hfs & _).
  unfold post_submit.
  destruct (Js.falsy (Body.race_date body) || Js.falsy (Body.race_time body)
            || Js.falsy (Body.series body)) eqn:Hf.
  - eexists. split; [reflexivity|]. done.
  - by apply required_filled_iff in Hf.
Qed.

(** X18: a promotion shows at the next login: once the promotion route has
    run for the id of a user, a login of that user with a password that
    compares to the stored hash stores a session whose role is admin. *)
Theorem promotion_shows_at_next_login (id : string) (now : Z) (w : World)
    (email password : string) (s : session) (user : User.t) :
  Db.get_user_by_email (Db.Text email) (db w) = Some user ->
  Db.as_integer (Db.Text id) = Some (User.id user) ->
  bcrypt_compare password (User.password_hash user) = true ->
  exists o,
    post_login email password s (post_make_admin id now w).2
    = (Redirect "/dashboard", Some o)
    /\ Js.prop o "role" = Js.Str "admin"
    /\ Js.prop o "id" = Js.Num (User.id user)
    /\ Js.prop o "email" = Js.Str email.
Proof.
  intros Hget Hid Hcmp. unfold post_make_admin, run. simpl.
  unfold post_login, login, Db.get_user_by_email. simpl.
  rewrite find_map_stable by (intros u; by destruct (Db.int_eq _ _)).
  unfold Db.get_user_by_email in Hget. simpl in Hget. rewrite Hget. simpl.
  apply (int_eq_param (User.id user) (Db.Text id)) in Hid. rewrite Hid. simpl.
  rewrite Hcmp. simpl. eexists. split; [reflexivity|]. split_and!; try done.
  apply find_Some_elem in Hget as [_ He]. apply bool_decide_eq_true in He.
  change (Js.Str (User.email user) = Js.Str email). by rewrite He.
Qed.

(** X19: no request removes a user or changes a user's id, name, email,
    password hash or creation time; a role either stays or becomes admin. *)
Theorem users_only_gain (sid : string) (r : request) (now : Z) (sv : server) :
  let users := Db.users (db (world sv)) in
  let users' := Db.users (db (world (serve env sid r now sv).2)) in
  (length users <= length users')%nat
  /\ (forall i u, users !! i = Some u ->
        exists u', users' !! i = Some u'
          /\ User.id u' = User.id u /\ User.name u' = User.name u
          /\ User.email u' = User.email u
          /\ User.password_hash u' = User.password_hash u
          /\ User.created_at u' = User.created_at u
          /\ (User.role u' = User.role u \/ User.role u' = "admin")).
Proof.
  simpl.
  assert (Hsame : forall s : Db.store, (length (Db.users s) <= length (Db.users s))%nat
            /\ forall i u, Db.users s !! i = Some u ->
                 exists u', Db.users s !! i = Some u'
                   /\ User.id u' = User.id u /\ User.name u' = User.name u
                   /\ User.email u' = User.email u
                   /\ User.password_hash u' = User.password_hash u
                   /\ User.created_at u' = User.created_at u
                   /\ (User.role u' = User.role u \/ User.role u' = "admin")).
  { intros s. split; [lia|]. intros i u Hu. exists u. split_and!; try done. by left. }
  destruct (serve_store env sid r now sv) as [->|(st & Hst & Hrun)]; [apply Hsame|].
  revert Hrun. generalize (db (world (serve env sid r now sv).2)). intros s'.
  destruct r; simpl in Hst; try done.
  - destruct Hst as (role & -> & _). simpl.
    destruct (existsb _ _); [done|]. intros [= <-]. simpl. split.
    + rewrite length_app. lia.
    + intros i u Hu. exists u. rewrite lookup_app_l by (by eapply lookup_lt_Some).
      split_and!; try done. by left.
  - destruct Hst as (o & rp & tf & _ & ->). simpl.
    destruct (Db.as_integer _); [|done]. intros [= <-]. simpl. apply (Hsame (db (world sv))).
  - destruct Hst as (o & rp & tf & _ & ->). simpl. intros [= <-]. simpl. apply (Hsame (db (world sv))).
  - destruct Hst as (o & _ & _ & ->). simpl. intros [= <-]. simpl. split.
    + by rewrite length_map.
    + intros i u Hu. rewrite list_lookup_fmap, Hu. simpl. eexists. split; [reflexivity|].
      destruct (Db.int_eq _ _); simpl; split_and!; try done; [by right|by left].
Qed.

(** X20: no request removes a submission or changes its id, owner or
    creation time; and a request whose session does not carry the id of a
    row's owner (or that carries no session) leaves that row exactly as it
    was. *)
Theorem submissions_change_only_by_owner (sid : string) (r : request) (now : Z)
    (sv : server) :
  let rows := Db.submissions (db (world sv)) in
  let rows' := Db.submissions (db (world (serve env sid r now sv).2)) in
  (length rows <= length rows')%nat
  /\ (forall i row, rows !! i = Some row ->
        (exists row', rows' !! i = Some row'
           /\ Submission.id row' = Submission.id row
           /\ Submission.user_id row' = Submission.user_id row
           /\ Submission.created_at row' = Submission.created_at row)
        /\ ((forall o, sessions sv !! sid = Some o ->
               Db.as_integer (Db.bind (Js.prop o "id")) <> Some (Submission.user_id row)) ->
            rows' !! i = Some row)).
Proof.
  simpl.
  destruct (serve_store env sid r now sv) as [->|(st & Hst & Hrun)].
  { split; [lia|]. intros i row Hrow. split; [by exists row|done]. }
  revert Hrun. generalize (db (world (serve env sid r now sv).2)). intros s'.
  destruct r; simpl in Hst; try done.
  - destruct Hst as (role & -> & _). simpl.
    destruct (existsb _ _); [done|]. intros [= <-]. simpl.
    split; [lia|]. intros i row Hrow. split; [by exists row|done].
  - destruct Hst as (o & rp & tf & _ & ->). simpl.
    destruct (Db.as_integer _); [|done]. intros [= <-]. simpl. split.
    + rewrite length_app. lia.
    + intros i row Hrow. rewrite lookup_app_l by (by eapply lookup_lt_Some).
      split; [by exists row|done].
  - destruct Hst as (o & rp & tf & Ho & ->). simpl. intros [= <-]. simpl. split.
    + by rewrite length_map.
    + intros i row Hrow. rewrite list_lookup_fmap, Hrow. simpl.
      destruct (Db.owned_by _ _ row) eqn:Hk; simpl.
      * split; [by eexists|]. intros Hother. destruct (Hother o Ho).
        unfold Db.owned_by in Hk. apply andb_true_iff in Hk as [_ Hk].
        by apply int_eq_param.
      * split; [by exists row|done].
  - destruct Hst as (o & _ & _ & ->). simpl. intros [= <-]. simpl.
    split; [lia|]. intros i row Hrow. split; [by exists row|done].
Qed.

End Frames.

(** ** The further statements on the concrete run *)

Module Checks.

Import Example.

Lemma plain_sound : bcrypt_sound (H := plain).
Proof. intros data salt. by apply bool_decide_eq_true_2. Qed.

(** A client without a session posts a submission with two files. *)
Lemma gated_needs_session_witness :
  (gated (PostSubmit race [lap] [trace1]) = true /\ sessions started !! "z" = None)
  /\ serve (H := plain) env "z" (PostSubmit race [lap] [trace1]) 9 started
     = (Redirect "/login", started).
Proof.
  split; [split; vm_compute; reflexivity|].
  apply (gated_needs_session (H := plain) env "z" (PostSubmit race [lap] [trace1]) 9 started);
    vm_compute; reflexivity.
Defined.

(** Alice, a driver, calls the promotion route for her own id. *)
Lemma roles_change_only_by_admin_witness :
  (forall id o, PostMakeAdmin "1" = PostMakeAdmin id -> sessions started !! "a" = Some o ->
     Js.prop o "role" <> Js.Str "admin")
  /\ serve (H := plain) env "a" (PostMakeAdmin "1") 9 started
     = (Send 403 "Forbidden", started)
  /\ exists new, Db.users (db (world (serve (H := plain) env "a" (PostMakeAdmin "1") 9
                                         started).2))
                 = (Db.users (db stored) ++ new)%list
       /\ (length new <= 1)%nat.
Proof.
  assert (Hrole : forall id o, PostMakeAdmin "1" = PostMakeAdmin id ->
            sessions started !! "a" = Some o -> Js.prop o "role" <> Js.Str "admin").
  { intros id o _ Ho.
    assert (Ha : sessions started !! "a" = Some alice_session) by (vm_compute; reflexivity).
    rewrite Ha in Ho. injection Ho as <-. vm_compute. discriminate. }
  split; [exact Hrole|].
  destruct (roles_change_only_by_admin (H := plain) env "a" (PostMakeAdmin "1") 9 started Hrole)
    as [Hrows Hdenied].
  split; [|exact Hrows].
  apply (Hdenied "1" alice_session eq_refl). vm_compute; reflexivity.
Defined.

(** Alice registers without the code and logs in. *)
Lemma no_admin_without_secret_witness :
  let rs := [ ("a", PostRegister alice "s1", 1); ("a", PostLogin (Some "a@x.com") (Some "pw1"), 3) ] in
  (forall sid body salt now,
     (sid, PostRegister body salt, now) ∈ rs -> ~ code_matches env body)
  /\ no_admin (serve_all (H := plain) env rs boot).
Proof.
  cbv zeta.
  assert (Hrs : forall sid body salt now,
            (sid, PostRegister body salt, now)
            ∈ [ ("a", PostRegister alice "s1", 1); ("a", PostLogin (Some "a@x.com") (Some "pw1"), 3) ] ->
            ~ code_matches env body).
  { intros sid body salt now [Heq|Hin]%elem_of_cons.
    - injection Heq as _ -> _ _. intros (c & Hc & Hne & _). vm_compute in Hc. congruence.
    - apply elem_of_cons in Hin as [Heq|Hin]; [discriminate Heq|by apply elem_of_nil in Hin]. }
  split; [exact Hrs|].
  exact (no_admin_without_secret (H := plain) env _ Hrs).
Defined.

(** Bob registers on a fresh server and logs in. *)
Lemma register_then_login_witness :
  let w' := (post_register (H := plain) env bob "s2" 2 initial).2 in
  (bcrypt_sound (H := plain)
   /\ post_register (H := plain) env bob "s2" 2 initial = (Redirect "/login", w'))
  /\ exists o,
       post_login (H := plain) (Js.text (Body.email bob)) (Js.text (Body.password bob)) None w'
       = (Redirect "/dashboard", Some o)
       /\ Js.prop o "name" = Js.Str (Js.text (Body.name bob))
       /\ Js.prop o "email" = Js.Str (Js.text (Body.email bob))
       /\ (Js.prop o "role" = Js.Str "admin" <-> code_matches env bob)
       /\ (~ code_matches env bob -> Js.prop o "role" = Js.Str "driver").
Proof.
  cbv zeta.
  assert (Hreg : post_register (H := plain) env bob "s2" 2 initial
                 = (Redirect "/login", (post_register (H := plain) env bob "s2" 2 initial).2))
    by (vm_compute; reflexivity).
  split; [split; [exact plain_sound|exact Hreg]|].
  exact (register_then_login (H := plain) env bob "s2" 2 initial _ None plain_sound Hreg).
Defined.

(** Alice submits a second race with a replay and a telemetry file. *)
Lemma submit_appends_row_witness :
  (sessions started !! "a" = Some alice_session
   /\ Js.prop alice_session "id" = Js.Num 1
   /\ (length [lap2] <= 1)%nat /\ (length [trace2] <= 5)%nat
   /\ required_filled race)
  /\ exists sv' row,
       serve (H := plain) env "a" (PostSubmit race [lap2] [trace2]) 12 started
       = (Redirect "/dashboard", sv')
       /\ Db.submissions (db (world sv')) = (Db.submissions (db stored) ++ [row])%list
       /\ Submission.id row = Db.submissions_seq (db stored) + 1
       /\ Submission.user_id row = 1
       /\ Submission.replay_file row = head (map snd (stored_paths Intake.replayDir [lap2]))
       /\ Submission.telemetry_files row
          = Some (map snd (stored_paths Intake.telemetryDir [trace2]))
       /\ row_paths row ⊆ fs (world sv').
Proof.
  assert (Ha : sessions started !! "a" = Some alice_session) by (vm_compute; reflexivity).
  assert (Hi : Js.prop alice_session "id" = Js.Num 1) by (vm_compute; reflexivity).
  assert (Hr : (length [lap2] <= 1)%nat) by (vm_compute; lia).
  assert (Ht : (length [trace2] <= 5)%nat) by (vm_compute; lia).
  assert (Hv : required_filled race) by (repeat split; vm_compute; reflexivity).
  split; [done|].
  destruct (submit_appends_row (H := plain) env "a" alice_session 1 race [lap2] [trace2] 12
              started Ha Hi Hr Ht Hv)
    as (sv' & row & Hs & Hrows & _ & _ & Hid & Huid & _ & _ & _ & _ & _ & _ & Hrep & Htel
        & _ & Hpaths).
  exists sv', row. done.
Defined.

(** After [history] Alice submits; the new row is hers to edit. *)
Lemma submitted_row_is_editable_witness :
  (sessions (serve_all (H := plain) env history boot) !! "a" = Some alice_session
   /\ (length [lap2] <= 1)%nat /\ (length [trace2] <= 5)%nat
   /\ required_filled race)
  /\ exists sv' row uid,
       serve (H := plain) env "a" (PostSubmit race [lap2] [trace2]) 12
         (serve_all (H := plain) env history boot) = (Redirect "/dashboard", sv')
       /\ row ∈ Db.submissions (db (world sv'))
       /\ Js.prop alice_session "id" = Js.Num uid
       /\ Db.get_submission (Db.Text (Js.template_number (Submission.id row)))
            (Db.bind (Js.prop alice_session "id")) (db (world sv')) = Some row
       /\ (forall body' files' now', required_filled body' ->
             (post_edit alice_session (Js.template_number (Submission.id row)) body' files'
                now' (world sv')).1 = Redirect "/dashboard")
       /\ (forall o' uid' body' files' now',
             Js.prop o' "id" = Js.Num uid' -> uid' <> uid ->
             post_edit o' (Js.template_number (Submission.id row)) body' files' now'
               (world sv') = (not_found, world sv')).
Proof.
  assert (Ha : sessions (serve_all (H := plain) env history boot) !! "a" = Some alice_session)
    by (vm_compute; reflexivity).
  assert (Hr : (length [lap2] <= 1)%nat) by (vm_compute; lia).
  assert (Ht : (length [trace2] <= 5)%nat) by (vm_compute; lia).
  assert (Hv : required_filled race) by (repeat split; vm_compute; reflexivity).
  split; [done|].
  exact (submitted_row_is_editable (H := plain) env history "a" alice_session race
           [lap2] [trace2] 12 Ha Hr Ht Hv).
Defined.

(** Bob posts an edit of Alice's submission with a replay file. *)
Lemma refused_edit_keeps_uploads_witness :
  let out := serve (H := plain) env "b" (PostEdit "1" race [lap2] []) 12 started in
  (sessions started !! "b" = Some bob_session
   /\ (length [lap2] <= 1)%nat /\ (length (@nil Intake.part) <= 5)%nat
   /\ out.1 <> Redirect "/dashboard")
  /\ out.1 = not_found
  /\ db (world out.2) = db stored
  /\ (Intake.replayDir, "11-lap_2.rpy") ∈ fs (world out.2).
Proof.
  cbv zeta.
  assert (Hb : sessions started !! "b" = Some bob_session) by (vm_compute; reflexivity).
  assert (Hr : (length [lap2] <= 1)%nat) by (vm_compute; lia).
  assert (Ht : (length (@nil Intake.part) <= 5)%nat) by (vm_compute; lia).
  assert (Hn : (serve (H := plain) env "b" (PostEdit "1" race [lap2] []) 12 started).1
               <> Redirect "/dashboard") by (vm_compute; discriminate).
  split; [done|].
  destruct (refused_edit_keeps_uploads (H := plain) env "b" bob_session "1" race [lap2] []
              12 started Hb Hr Ht Hn) as (_ & Hdb & _ & Hfs).
  split; [vm_compute; reflexivity|]. split; [exact Hdb|].
  rewrite Hfs. apply elem_of_union. right. apply elem_of_list_to_set. vm_compute. left.
Defined.

(** Alice's stored row after [history]. *)
Lemma stored_names_safe_witness :
  alice_row ∈ Db.submissions (db (world (serve_all (H := plain) env history boot)))
  /\ row_names_safe alice_row.
Proof.
  assert (Hin : alice_row
                ∈ Db.submissions (db (world (serve_all (H := plain) env history boot))))
    by (vm_compute; left).
  split; [exact Hin|].
  exact (stored_names_safe (H := plain) env history alice_row Hin).
Defined.

(** Alice posts a submission without a series, with a replay file. *)
Lemma refused_submit_keeps_uploads_witness :
  let body := {| Body.race_date := Some "2024-02-02"; Body.race_time := Some "10:00";
                 Body.series := None; Body.is_protest := None;
                 Body.protest_text := None |} in
  (sessions started !! "a" = Some alice_session
   /\ (length [lap2] <= 1)%nat /\ (length (@nil Intake.part) <= 5)%nat
   /\ ~ required_filled body)
  /\ exists sv',
       serve (H := plain) env "a" (PostSubmit body [lap2] []) 12 started
       = (Render "submit"
            {| user := Some alice_session; error := Some "Please fill required fields.";
               submission := None |}, sv')
       /\ db (world sv') = db stored
       /\ sessions sv' = sessions started
       /\ fs (world sv') = fs stored
            ∪ list_to_set (stored_paths Intake.replayDir [lap2]
                           ++ stored_paths Intake.telemetryDir []).
Proof.
  cbv zeta.
  assert (Ha : sessions started !! "a" = Some alice_session) by (vm_compute; reflexivity).
  assert (Hr : (length [lap2] <= 1)%nat) by (vm_compute; lia).
  assert (Ht : (length (@nil Intake.part) <= 5)%nat) by (vm_compute; lia).
  assert (Hv : ~ required_filled
                 {| Body.race_date := Some "2024-02-02"; Body.race_time := Some "10:00";
                    Body.series := None; Body.is_protest := None;
                    Body.protest_text := None |}).
  { intros (_ & _ & Hs). vm_compute in Hs. discriminate Hs. }
  split; [done|].
  exact (refused_submit_keeps_uploads (H := plain) env "a" alice_session _ [lap2] [] 12
           started Ha Hr Ht Hv).
Defined.

(** Alice is promoted and logs in again. *)
Lemma promotion_shows_at_next_login_witness :
  let user := {| User.id := 1; User.name := "Alice"; User.email := "a@x.com";
                 User.password_hash := "$pw1"; User.role := "driver";
                 User.created_at := 1 |} in
  (Db.get_user_by_email (Db.Text "a@x.com") (db stored) = Some user
   /\ Db.as_integer (Db.Text "1") = Some (User.id user)
   /\ bcrypt_compare (Bcrypt := plain) "pw1" (User.password_hash user) = true)
  /\ exists o,
       post_login (H := plain) "a@x.com" "pw1" None (post_make_admin "1" 20 stored).2
       = (Redirect "/dashboard", Some o)
       /\ Js.prop o "role" = Js.Str "admin"
       /\ Js.prop o "id" = Js.Num (User.id user)
       /\ Js.prop o "email" = Js.Str "a@x.com".
Proof.
  cbv zeta. split; [repeat split; vm_compute; reflexivity|].
  apply (promotion_shows_at_next_login (H := plain) "1" 20 stored "a@x.com" "pw1" None);
    vm_compute; reflexivity.
Defined.

(** The promotion route at /admin/users/1.0/make-admin: under every
    conversion that takes the text "1.0" for the integer 1, as SQLite's
    does, Alice, user 1, is promoted. *)
Lemma make_admin_at_other_numeral (A : Db.Affinity) :
  Db.integer_of_text "1.0" = Some 1 ->
  map User.role (Db.users (db stored)) = ["driver"; "admin"]
  /\ map User.role (Db.users (db (post_make_admin (H0 := A) "1.0" 20 stored).2))
     = ["admin"; "admin"].
Proof.
  intros Hconv.
  assert (Hids : map User.id (Db.users (db stored)) = [1; 2]) by (vm_compute; reflexivity).
  assert (Hroles : map User.role (Db.users (db stored)) = ["driver"; "admin"])
    by (vm_compute; reflexivity).
  split; [done|].
  unfold post_make_admin, run, Db.run. cbn [db snd Db.users].
  destruct (Db.users (db stored)) as [|a [|b [|c l]]]; try done.
  injection Hids as Ha Hb. injection Hroles as _ Hrb.
  cbn [map]. unfold Db.int_eq, Db.as_integer. rewrite Hconv, Ha, Hb.
  rewrite bool_decide_eq_true_2 by done. rewrite bool_decide_eq_false_2 by done.
  simpl. by rewrite Hrb.
Qed.

(** The script run on the store after [history]: Alice has the smallest
    id and Bob is left as he was. *)
Lemma promote_first_user_witness :
  (forall u, u ∈ Db.users (db stored) -> safe_integer (User.id u) = true)
  /\ ((Db.users (db stored) = [] ->
       promoteOnlyUserToAdmin 20 stored = Printed "No users found. Nothing to do." stored)
      /\ (Db.users (db stored) <> [] ->
          exists user w',
            user ∈ Db.users (db stored)
            /\ (forall v, v ∈ Db.users (db stored) -> User.id user <= User.id v)
            /\ promoteOnlyUserToAdmin 20 stored
               = Printed ("Promoted user " +:+ User.email user +:+ " (id="
                          +:+ Js.template_number (User.id user) +:+ ") to admin.") w'
            /\ Db.users (db w')
               = map (fun u => if bool_decide (User.id u = User.id user)
                               then Db.set_role "admin" u else u) (Db.users (db stored))
            /\ Db.submissions (db w') = Db.submissions (db stored)
            /\ fs w' = fs stored)).
Proof.
  assert (Hids : map User.id (Db.users (db stored)) = [1; 2]) by (vm_compute; reflexivity).
  assert (Hsafe : forall u, u ∈ Db.users (db stored) -> safe_integer (User.id u) = true).
  { intros u Hu. apply (list_elem_of_fmap_2 User.id) in Hu.
    change (User.id <$> Db.users (db stored)) with (map User.id (Db.users (db stored))) in Hu.
    rewrite Hids in Hu.
    apply elem_of_cons in Hu as [->|Hu]; [reflexivity|].
    apply elem_of_cons in Hu as [->|Hu]; [reflexivity|].
    by apply elem_of_nil in Hu. }
  split; [exact Hsafe|].
  exact (promote_first_user 20 stored Hsafe).
Defined.

(** What the script prints on that store. *)
Lemma promote_first_user_prints :
  exists w', promoteOnlyUserToAdmin 20 stored
             = Printed "Promoted user a@x.com (id=1) to admin." w'
    /\ map User.role (Db.users (db w')) = ["admin"; "admin"].
Proof. eexists. split; vm_compute; reflexivity. Qed.

End Checks.
